(** * Occupancy rows of a property section

    A shallow embedding of [src/ulmaniai/occupancyUtils.ts] (the row
    generator [autoSetUsageStatus]) and of
    [src/ulmaniai/useOccupancySection.ts] (the React hook holding one
    [SectionInfo] per occupancy status), followed by the properties the
    specification states about them.

    Conventions of the embedding.
    - A TypeScript [number] that counts rows is an integer [Z]; every caller
      in the repository passes [Number(digits) || 0], and the specification
      gives the generator non-negative integer counts.  Doubles, [NaN] and
      the engine's limit on array lengths are outside the model.
    - A string is a [string] of UTF-8 bytes; two well-formed strings are
      [===] exactly when their bytes agree.
    - An object with an optional field carries an [option].
    - A [Record<OccupancyStatus, SectionInfo>] is a finite map; reading a
      property of a missing entry is the [TypeError] of the engine. *)

From Stdlib Require Import Ascii.
From stdpp Require Import gmap strings list pretty.

Local Open Scope Z_scope.

(** ** occupancyUtils.ts *)

(** [type OccupancyStatus = 'residence' | 'rent' | 'both' | 'self-use'] *)
Inductive OccupancyStatus : Set :=
  | Residence
  | Rent
  | Both
  | SelfUse.

Global Instance OccupancyStatus_eq_dec : EqDecision OccupancyStatus.
Proof. solve_decision. Defined.

Definition OccupancyStatus_code (s : OccupancyStatus) : positive :=
  match s with
  | Residence => 1
  | Rent => 2
  | Both => 3
  | SelfUse => 4
  end%positive.

Definition OccupancyStatus_decode (p : positive) : option OccupancyStatus :=
  match p with
  | 1 => Some Residence
  | 2 => Some Rent
  | 3 => Some Both
  | 4 => Some SelfUse
  | _ => None
  end%positive.

Global Program Instance OccupancyStatus_countable : Countable OccupancyStatus :=
  {| encode := OccupancyStatus_code; decode := OccupancyStatus_decode |}.
Next Obligation. by intros []. Qed.

(** The string a status value is at run time. *)
Definition status_string (s : OccupancyStatus) : string :=
  match s with
  | Residence => "residence"
  | Rent => "rent"
  | Both => "both"
  | SelfUse => "self-use"
  end.

(** [type LeaseRow] *)
Record LeaseRow : Set := mkLeaseRow {
  id : string;
  usage : string;
  deposit : string;
  rent : string;
  businessRegistration : option string;
}.

Global Instance LeaseRow_eq_dec : EqDecision LeaseRow.
Proof. solve_decision. Defined.

(** [type SectionInfo] *)
Record SectionInfo : Set := mkSectionInfo {
  totalCount : string;
  tenantCount : string;
  leaseRows : list LeaseRow;
}.

Global Instance SectionInfo_eq_dec : EqDecision SectionInfo.
Proof. solve_decision. Defined.

(** The usage labels written by the generator. *)
Definition LABEL_RESIDING : string := "거주 중".
Definition LABEL_DIRECT_USE : string := "직접사용".
Definition LABEL_RENTED : string := "임대".
Definition LABEL_VACANT : string := "공실".
Definition LABEL_RESIDENCE : string := "거주".

(** [String(n)] of an integer: its decimal numeral. *)
Definition String_of (n : Z) : string := pretty n.

(** [Math.max(a, b, c)] and [Math.max(a, b)] on integers. *)
Definition Math_max3 (a b c : Z) : Z := Z.max (Z.max a b) c.
Definition Math_max2 (a b : Z) : Z := Z.max a b.

(** [for (let i = 0; i < rowCount; i += 1) newRows.push(body(i))]: the rows
    pushed, in order.  No iteration runs when [rowCount <= 0]. *)
Definition push_rows (rowCount : Z) (body : nat → LeaseRow) : list LeaseRow :=
  body <$> seq 0 (Z.to_nat rowCount).

(** [existingRow?.deposit || ''] and its siblings: the field of the row when
    there is one, the empty string otherwise ([f] of a row is a string, and
    the empty string is its own default). *)
Definition field_or_empty (f : LeaseRow → string) (existingRow : option LeaseRow)
    : string :=
  match existingRow with
  | Some r => f r
  | None => ""
  end.

(** [existingRow?.businessRegistration || ''] *)
Definition registration_or_empty (existingRow : option LeaseRow) : string :=
  match existingRow with
  | Some r => default "" (businessRegistration r)
  | None => ""
  end.

(** [...(isCommercial && { businessRegistration: v })] *)
Definition spread_registration (isCommercial : bool) (v : string)
    : option string :=
  if isCommercial then Some v else None.

Definition autoSetUsageStatus (totalCount tenantCount : Z)
    (existingRows : list LeaseRow) (status : OccupancyStatus)
    (isCommercial : bool) : list LeaseRow :=
  if bool_decide (status = Residence) || bool_decide (status = SelfUse) then
    let rowCount := Math_max3 totalCount tenantCount 1 in
    push_rows rowCount (λ i,
      let usage := if isCommercial then LABEL_DIRECT_USE else LABEL_RESIDING in
      {| id := String_of (Z.of_nat i + 1);
         usage := usage;
         deposit := "";
         rent := "";
         businessRegistration := spread_registration isCommercial "" |})
  else if bool_decide (status = Rent) then
    let rowCount := Math_max3 totalCount tenantCount 1 in
    push_rows rowCount (λ i,
      let existingRow := existingRows !! i in
      let usage :=
        if bool_decide (Z.of_nat i < tenantCount) then LABEL_RENTED
        else LABEL_VACANT in
      {| id := String_of (Z.of_nat i + 1);
         usage := usage;
         deposit :=
           if bool_decide (usage = LABEL_RENTED)
           then field_or_empty deposit existingRow else "";
         rent :=
           if bool_decide (usage = LABEL_RENTED)
           then field_or_empty rent existingRow else "";
         businessRegistration := None |})
  else if bool_decide (status = Both) then
    let availableCount := totalCount - 1 in
    let rentCount := Math_max2 availableCount tenantCount in
    let newRows :=
      push_rows rentCount (λ i,
        let existingRow := existingRows !! i in
        let usage :=
          if bool_decide (Z.of_nat i < tenantCount) then LABEL_RENTED
          else LABEL_VACANT in
        {| id := String_of (Z.of_nat i + 1);
           usage := usage;
           deposit :=
             if bool_decide (usage = LABEL_RENTED)
             then field_or_empty deposit existingRow else "";
           rent :=
             if bool_decide (usage = LABEL_RENTED)
             then field_or_empty rent existingRow else "";
           businessRegistration :=
             spread_registration isCommercial
               (registration_or_empty existingRow) |}) in
    newRows ++
      [ {| id := String_of (rentCount + 1);
           usage := if isCommercial then LABEL_DIRECT_USE else LABEL_RESIDENCE;
           deposit := "";
           rent := "";
           businessRegistration := spread_registration isCommercial "" |} ]
  else existingRows.

(** ** useOccupancySection.ts *)

(** [type: 'residential' | 'commercial'] *)
Inductive SectionType : Set :=
  | residential
  | commercial.

Global Instance SectionType_eq_dec : EqDecision SectionType.
Proof. solve_decision. Defined.

(** What a handler can raise: reading a property of [undefined]. *)
Inductive Error : Set :=
  | TypeError.

Inductive result (A : Type) : Type :=
  | Ok (a : A)
  | Throw (e : Error).
Global Arguments Ok {A} a.
Global Arguments Throw {A} e.

Global Instance result_ret : MRet result := λ A a, Ok a.
Global Instance result_bind : MBind result := λ A B f m,
  match m with
  | Ok a => f a
  | Throw e => Throw e
  end.

(** [value.replace(/[^0-9]/g, '')] *)
Definition is_digit (c : ascii) : bool :=
  (48 <=? nat_of_ascii c)%nat && (nat_of_ascii c <=? 57)%nat.

Fixpoint replace_non_digits (value : string) : string :=
  match value with
  | EmptyString => EmptyString
  | String c rest =>
      if is_digit c then String c (replace_non_digits rest)
      else replace_non_digits rest
  end.

(** The value of a decimal digit. *)
Definition digit_value (c : ascii) : Z := Z.of_nat (nat_of_ascii c) - 48.

(** [Number(s)] for a string [s] of decimal digits: its decimal value, [0]
    for the empty string.  The hook converts only what
    [replace(/[^0-9]/g, '')] returned and the counts it stored, all strings
    of digits ([reachable_wf] below); on any other string this function is
    not JavaScript's [Number], and the statements that depend on its value
    assume strings of digits. *)
Fixpoint Number_from (acc : Z) (s : string) : Z :=
  match s with
  | EmptyString => acc
  | String c rest => Number_from (10 * acc + digit_value c) rest
  end.

Definition Number (s : string) : Z := Number_from 0 s.

(** [n || 0] on an integer. *)
Definition or_zero (n : Z) : Z := if bool_decide (n = 0) then 0 else n.

(** [!s] on a string. *)
Definition is_empty_string (s : string) : bool := bool_decide (s = "").

(** [type InfoRecord = Record<OccupancyStatus, SectionInfo>] *)
Abbreviation InfoRecord := (gmap OccupancyStatus SectionInfo).

Definition statuses_of (type : SectionType) : list OccupancyStatus :=
  if bool_decide (type = commercial) then [SelfUse; Rent; Both]
  else [Residence; Rent; Both].

Definition createInitialInfoState (type : SectionType) : InfoRecord :=
  list_to_map
    ((λ status,
        (status,
         {| totalCount := "1";
            tenantCount := "0";
            leaseRows :=
              [ {| id := "1";
                   usage := status_string status;
                   deposit := "";
                   rent := "";
                   businessRegistration := None |} ] |}))
     <$> statuses_of type).

(** The two [useState] cells of the hook. *)
Record HookState : Type := mkHookState {
  status : OccupancyStatus;
  info : InfoRecord;
}.

(** [useOccupancySection({ type, initialStatus })]: the state of the first
    render. *)
Definition useOccupancySection (type : SectionType)
    (initialStatus : OccupancyStatus) : HookState :=
  {| status := initialStatus; info := createInitialInfoState type |}.

Definition isCommercial (type : SectionType) : bool :=
  bool_decide (type = commercial).

(** [info[k]] followed by a property read. *)
Definition entry (rec : InfoRecord) (k : OccupancyStatus) : result SectionInfo :=
  match rec !! k with
  | Some si => Ok si
  | None => Throw TypeError
  end.

(** [{ ...si, leaseRows: rows }] and the like. *)
Definition with_leaseRows (rows : list LeaseRow) (si : SectionInfo) : SectionInfo :=
  {| totalCount := totalCount si; tenantCount := tenantCount si;
     leaseRows := rows |}.
Definition with_totalCount (v : string) (si : SectionInfo) : SectionInfo :=
  {| totalCount := v; tenantCount := tenantCount si;
     leaseRows := leaseRows si |}.
Definition with_tenantCount (v : string) (si : SectionInfo) : SectionInfo :=
  {| totalCount := totalCount si; tenantCount := v;
     leaseRows := leaseRows si |}.

(** [setInfo(prev => ({ ...prev, [k]: si }))] *)
Definition setInfo (k : OccupancyStatus) (si : SectionInfo) (s : HookState)
    : HookState :=
  {| status := status s; info := <[k := si]> (info s) |}.

Section Handlers.
Variable type : SectionType.

Definition handleStatusChange (newStatus : OccupancyStatus) (s : HookState)
    : result HookState :=
  currentInfo ← entry (info s) newStatus;
  let newRows :=
    autoSetUsageStatus
      (Math_max2 (or_zero (Number (totalCount currentInfo))) 1)
      (or_zero (Number (tenantCount currentInfo)))
      (leaseRows currentInfo)
      newStatus
      (isCommercial type) in
  Ok (setInfo newStatus (with_leaseRows newRows currentInfo)
        {| status := newStatus; info := info s |}).

Definition handleTotalCountChange (value : string) (s : HookState)
    : result HookState :=
  let onlyNumbers := replace_non_digits value in
  let newRowCount := Math_max2 (or_zero (Number onlyNumbers)) 1 in
  currentInfo ← entry (info s) (status s);
  let newRows :=
    autoSetUsageStatus
      newRowCount
      (or_zero (Number (tenantCount currentInfo)))
      (leaseRows currentInfo)
      (status s)
      (isCommercial type) in
  Ok (setInfo (status s)
        (with_leaseRows newRows (with_totalCount onlyNumbers currentInfo)) s).

Definition handleTotalCountBlur (s : HookState) : result HookState :=
  currentInfo ← entry (info s) (status s);
  let num := Number (totalCount currentInfo) in
  if is_empty_string (totalCount currentInfo) || bool_decide (num < 1) then
    Ok (setInfo (status s) (with_totalCount "1" currentInfo) s)
  else Ok s.

Definition handleTenantCountChange (value : string) (s : HookState)
    : result HookState :=
  let onlyNumbers := replace_non_digits value in
  let newTenantCount := or_zero (Number onlyNumbers) in
  currentInfo ← entry (info s) (status s);
  let newRows :=
    autoSetUsageStatus
      (or_zero (Number (totalCount currentInfo)))
      newTenantCount
      (leaseRows currentInfo)
      (status s)
      (isCommercial type) in
  Ok (setInfo (status s)
        (with_leaseRows newRows (with_tenantCount onlyNumbers currentInfo)) s).

Definition handleTenantCountBlur (s : HookState) : result HookState :=
  currentInfo ← entry (info s) (status s);
  if is_empty_string (tenantCount currentInfo) then
    Ok (setInfo (status s) (with_tenantCount "0" currentInfo) s)
  else Ok s.

(** The row handlers: [prev[status].leaseRows.map(r => r.id === rowId ? ... : r)]. *)
Definition map_row (rowId : string) (f : LeaseRow → LeaseRow) (s : HookState)
    : result HookState :=
  prevInfo ← entry (info s) (status s);
  Ok (setInfo (status s)
        (with_leaseRows
           ((λ r, if bool_decide (id r = rowId) then f r else r)
              <$> leaseRows prevInfo)
           prevInfo) s).

Definition handleRowUsageChange (rowId newUsage : string) (s : HookState)
    : result HookState :=
  map_row rowId (λ r,
    {| id := id r;
       usage := newUsage;
       deposit := if bool_decide (newUsage = LABEL_RENTED) then deposit r else "";
       rent := if bool_decide (newUsage = LABEL_RENTED) then rent r else "";
       businessRegistration := businessRegistration r |}) s.

Definition handleRowDepositChange (rowId value : string) (s : HookState)
    : result HookState :=
  let onlyNumbers := replace_non_digits value in
  map_row rowId (λ r,
    {| id := id r; usage := usage r; deposit := onlyNumbers; rent := rent r;
       businessRegistration := businessRegistration r |}) s.

Definition handleRowRentChange (rowId value : string) (s : HookState)
    : result HookState :=
  let onlyNumbers := replace_non_digits value in
  map_row rowId (λ r,
    {| id := id r; usage := usage r; deposit := deposit r; rent := onlyNumbers;
       businessRegistration := businessRegistration r |}) s.

Definition handleRowBusinessRegistrationChange (rowId value : string)
    (s : HookState) : result HookState :=
  map_row rowId (λ r,
    {| id := id r; usage := usage r; deposit := deposit r; rent := rent r;
       businessRegistration := Some value |}) s.

(** One call of a handler returned by the hook. *)
Inductive Call : Type :=
  | changeStatus (newStatus : OccupancyStatus)
  | changeTotalCount (value : string)
  | commitTotalCount
  | changeTenantCount (value : string)
  | commitTenantCount
  | changeRowUsage (rowId newUsage : string)
  | changeRowDeposit (rowId value : string)
  | changeRowRent (rowId value : string)
  | changeRowBusinessRegistration (rowId value : string).

Definition run (c : Call) (s : HookState) : result HookState :=
  match c with
  | changeStatus newStatus => handleStatusChange newStatus s
  | changeTotalCount value => handleTotalCountChange value s
  | commitTotalCount => handleTotalCountBlur s
  | changeTenantCount value => handleTenantCountChange value s
  | commitTenantCount => handleTenantCountBlur s
  | changeRowUsage rowId newUsage => handleRowUsageChange rowId newUsage s
  | changeRowDeposit rowId value => handleRowDepositChange rowId value s
  | changeRowRent rowId value => handleRowRentChange rowId value s
  | changeRowBusinessRegistration rowId value =>
      handleRowBusinessRegistrationChange rowId value s
  end.

(** The status whose entry a call writes. *)
Definition addressed (c : Call) (s : HookState) : OccupancyStatus :=
  match c with
  | changeStatus newStatus => newStatus
  | _ => status s
  end.

(** A sequence of calls, stopping at the first exception. *)
Fixpoint run_all (cs : list Call) (s : HookState) : result HookState :=
  match cs with
  | [] => Ok s
  | c :: cs' => s' ← run c s; run_all cs' s'
  end.
End Handlers.

(** ** States of the hook *)

(** The statuses a section of the given type has an entry for. *)
Definition applicable (type : SectionType) (k : OccupancyStatus) : Prop :=
  k ∈ statuses_of type.

Global Instance applicable_dec type k : Decision (applicable type k).
Proof. unfold applicable. apply _. Defined.

(** A string left unchanged by [replace(/[^0-9]/g, '')]. *)
Definition digits_only (s : string) : Prop := replace_non_digits s = s.

Global Instance digits_only_dec s : Decision (digits_only s).
Proof. unfold digits_only. apply _. Defined.

(** Row [i] (0-based) has the id [String(i + 1)]. *)
Definition positional_ids (rows : list LeaseRow) : Prop :=
  ∀ (i : nat) (r : LeaseRow),
    rows !! i = Some r → id r = String_of (Z.of_nat i + 1).

Record wf_row (r : LeaseRow) : Prop := mk_wf_row {
  wf_deposit : digits_only (deposit r);
  wf_rent : digits_only (rent r);
}.

Record wf_info (si : SectionInfo) : Prop := mk_wf_info {
  wf_totalCount : digits_only (totalCount si);
  wf_tenantCount : digits_only (tenantCount si);
  wf_nonempty : leaseRows si ≠ [];
  wf_ids : positional_ids (leaseRows si);
  wf_rows : Forall wf_row (leaseRows si);
}.

Record wf_state (type : SectionType) (s : HookState) : Prop := mk_wf_state {
  wf_status : applicable type (status s);
  wf_entries : ∀ k, is_Some (info s !! k) ↔ applicable type k;
  wf_infos : ∀ k si, info s !! k = Some si → wf_info si;
}.

(** The states a hook can be in: the first render, with an initial status of
    its own type, and what each completed handler call leaves. *)
Inductive reachable (type : SectionType) : HookState → Prop :=
  | reachable_init (initialStatus : OccupancyStatus) :
      applicable type initialStatus →
      reachable type (useOccupancySection type initialStatus)
  | reachable_step (s s' : HookState) (c : Call) :
      reachable type s →
      run type c s = Ok s' →
      reachable type s'.

(** ** Counting rows *)

(** The number of rows labelled as rented. *)
Definition rented_count (rows : list LeaseRow) : nat :=
  length (filter (λ r, usage r = LABEL_RENTED) rows).

(** The number of rows the generator returns under status [k] for the counts
    stored in an entry: the counts are read as the handlers read them. *)
Definition stored_row_count (k : OccupancyStatus) (si : SectionInfo) : Z :=
  let total := or_zero (Number (totalCount si)) in
  let tenant := or_zero (Number (tenantCount si)) in
  if bool_decide (k = Both) then Math_max2 (total - 1) tenant + 1
  else Math_max3 total tenant 1.

(** Every entry of the state holds as many rows as its stored counts ask for. *)
Definition rows_match_counts (s : HookState) : Prop :=
  ∀ (k : OccupancyStatus) (si : SectionInfo),
    info s !! k = Some si →
    Z.of_nat (length (leaseRows si)) = stored_row_count k si.

(** The calls that store rows returned by the generator. *)
Definition regenerates (c : Call) : bool :=
  match c with
  | changeStatus _ | changeTotalCount _ | changeTenantCount _ => true
  | _ => false
  end.

(** ** Bounded counts *)

(** Every count stored in the state is at most [limit]. *)
Definition counts_within (limit : Z) (s : HookState) : Prop :=
  ∀ (k : OccupancyStatus) (si : SectionInfo),
    info s !! k = Some si →
    Number (totalCount si) ≤ limit ∧ Number (tenantCount si) ≤ limit.

(** The count typed into a call, once its non-digit characters are removed,
    is at most [limit]; the calls that take no count type none. *)
Definition typed_within (limit : Z) (c : Call) : Prop :=
  match c with
  | changeTotalCount value | changeTenantCount value =>
      Number (replace_non_digits value) ≤ limit
  | _ => True
  end.

(** * Properties *)

(** ** The loop *)

Lemma push_rows_length (rowCount : Z) (body : nat → LeaseRow) :
  Z.of_nat (length (push_rows rowCount body)) = Z.max 0 rowCount.
Proof. unfold push_rows. rewrite length_fmap, length_seq. lia. Qed.

Lemma push_rows_lookup (rowCount : Z) (body : nat → LeaseRow) (i : nat)
    (r : LeaseRow) :
  push_rows rowCount body !! i = Some r ↔ Z.of_nat i < rowCount ∧ r = body i.
Proof.
  unfold push_rows. rewrite list_lookup_fmap. split.
  - destruct (seq 0 (Z.to_nat rowCount) !! i) as [k|] eqn:Hk; [|done].
    apply lookup_seq in Hk as [-> Hlt]. simpl. intros [= <-]. split; [lia|done].
  - intros [Hlt ->].
    assert (seq 0 (Z.to_nat rowCount) !! i = Some i) as ->; [|done].
    apply lookup_seq. split; [done|lia].
Qed.

Lemma labels_distinct : LABEL_VACANT ≠ LABEL_RENTED.
Proof. discriminate. Qed.

Example autoSetUsageStatus_doc_rent :
  usage <$> autoSetUsageStatus 3 2 [] Rent false
  = [LABEL_RENTED; LABEL_RENTED; LABEL_VACANT].
Proof. vm_compute. reflexivity. Qed.

Example autoSetUsageStatus_doc_both :
  usage <$> autoSetUsageStatus 3 1 [] Both false
  = [LABEL_RENTED; LABEL_VACANT; LABEL_RESIDENCE].
Proof. vm_compute. reflexivity. Qed.

Example autoSetUsageStatus_doc_ids :
  id <$> autoSetUsageStatus 3 0 [] Residence false = ["1"; "2"; "3"]%string.
Proof. vm_compute. reflexivity. Qed.


(** ** The generator *)

(** The row the [rent] loop and the rent block of [both] push at index [i],
    read field by field. *)
Lemma rented_or_vacant (tenantCount : Z) (existingRows : list LeaseRow)
    (i : nat) (r : LeaseRow) :
  let label :=
    if bool_decide (Z.of_nat i < tenantCount) then LABEL_RENTED
    else LABEL_VACANT in
  usage r = label →
  deposit r =
    (if bool_decide (label = LABEL_RENTED)
     then field_or_empty deposit (existingRows !! i) else "") →
  rent r =
    (if bool_decide (label = LABEL_RENTED)
     then field_or_empty rent (existingRows !! i) else "") →
  (usage r = LABEL_RENTED ↔ Z.of_nat i < tenantCount) ∧
  (Z.of_nat i < tenantCount →
     match existingRows !! i with
     | Some e => deposit r = deposit e ∧ rent r = rent e
     | None => deposit r = "" ∧ rent r = ""
     end) ∧
  (¬ Z.of_nat i < tenantCount →
     usage r = LABEL_VACANT ∧ deposit r = "" ∧ rent r = "").
Proof.
  intros label Hu Hd Hr. subst label.
  destruct (bool_decide_reflect (Z.of_nat i < tenantCount)) as [Hlt|Hge].
  - rewrite bool_decide_eq_true_2 in Hd, Hr by done.
    split; [by rewrite Hu|]. split; [|done].
    intros _. rewrite Hd, Hr. by destruct (existingRows !! i).
  - rewrite bool_decide_eq_false_2 in Hd, Hr by apply labels_distinct.
    split; [|done]. rewrite Hu. split; [|done].
    intros Heq. by destruct labels_distinct.
Qed.

(** C1.  For status [rent] the generator returns exactly
    [max(totalCount, tenantCount, 1)] rows.  The row at 0-based index [i] is
    labelled rented exactly when [i < tenantCount]; a rented row takes its
    deposit and rent from [existingRows[i]] when that row exists and has them
    empty otherwise; any other row is labelled vacant and has an empty deposit
    and an empty rent, whatever [existingRows[i]] holds. *)
Theorem rent_rows (totalCount tenantCount : Z) (existingRows : list LeaseRow)
    (isCommercial : bool) :
  let rows :=
    autoSetUsageStatus totalCount tenantCount existingRows Rent isCommercial in
  Z.of_nat (length rows) = Math_max3 totalCount tenantCount 1 ∧
  ∀ (i : nat) (r : LeaseRow), rows !! i = Some r →
    (usage r = LABEL_RENTED ↔ Z.of_nat i < tenantCount) ∧
    (Z.of_nat i < tenantCount →
       match existingRows !! i with
       | Some e => deposit r = deposit e ∧ rent r = rent e
       | None => deposit r = "" ∧ rent r = ""
       end) ∧
    (¬ Z.of_nat i < tenantCount →
       usage r = LABEL_VACANT ∧ deposit r = "" ∧ rent r = "").
Proof.
  cbv zeta. unfold autoSetUsageStatus. simpl. split.
  - rewrite push_rows_length. unfold Math_max3. lia.
  - intros i r [_ ->]%push_rows_lookup.
    by apply (rented_or_vacant tenantCount existingRows i).
Qed.

(** C4.  For status [residence] or [self-use] the generator returns exactly
    [max(totalCount, tenantCount, 1)] rows, each labelled as residing
    (residential) or as directly used (commercial), each with an empty deposit
    and an empty rent, and the rows do not depend on [existingRows].  This
    holds for all integer counts, hence for all non-negative ones. *)
Theorem owner_rows (totalCount tenantCount : Z) (existingRows : list LeaseRow)
    (status : OccupancyStatus) (isCommercial : bool) :
  status = Residence ∨ status = SelfUse →
  let rows :=
    autoSetUsageStatus totalCount tenantCount existingRows status isCommercial in
  Z.of_nat (length rows) = Math_max3 totalCount tenantCount 1 ∧
  (∀ (i : nat) (r : LeaseRow), rows !! i = Some r →
     usage r = (if isCommercial then LABEL_DIRECT_USE else LABEL_RESIDING) ∧
     deposit r = "" ∧ rent r = "") ∧
  (∀ otherRows : list LeaseRow,
     autoSetUsageStatus totalCount tenantCount otherRows status isCommercial
     = rows).
Proof.
  intros Hst. cbv zeta.
  assert (bool_decide (status = Residence) || bool_decide (status = SelfUse)
          = true) as Hbranch.
  { destruct Hst as [-> | ->]; done. }
  unfold autoSetUsageStatus. rewrite Hbranch. split; [|split].
  - rewrite push_rows_length. unfold Math_max3. lia.
  - by intros i r [_ ->]%push_rows_lookup.
  - done.
Qed.

Lemma owner_rows_witness :
  (SelfUse = Residence ∨ SelfUse = SelfUse) ∧
  Z.of_nat (length (autoSetUsageStatus 2 0 [] SelfUse true)) = 2.
Proof.
  split; [right; reflexivity|].
  destruct (owner_rows 2 0 [] SelfUse true) as [Hlen _];
    [right; reflexivity | exact Hlen].
Defined.

(** C10.  For status [rent] the rows are the same whether the section is
    commercial or not, and no row carries a [businessRegistration] field;
    under every other status each row of a commercial section carries one. *)
Theorem rent_ignores_isCommercial (totalCount tenantCount : Z)
    (existingRows : list LeaseRow) :
  autoSetUsageStatus totalCount tenantCount existingRows Rent true
  = autoSetUsageStatus totalCount tenantCount existingRows Rent false ∧
  (∀ isCommercial : bool,
     Forall (λ r, businessRegistration r = None)
       (autoSetUsageStatus totalCount tenantCount existingRows Rent
          isCommercial)) ∧
  (∀ status : OccupancyStatus, status ≠ Rent →
     Forall (λ r, is_Some (businessRegistration r))
       (autoSetUsageStatus totalCount tenantCount existingRows status true)).
Proof.
  split; [done|]. split.
  - intros isCommercial.
    apply Forall_lookup. by intros i r [_ ->]%push_rows_lookup.
  - intros status Hst. destruct status; [|done| |]; unfold autoSetUsageStatus;
      simpl.
    + apply Forall_lookup. by intros i r [_ ->]%push_rows_lookup.
    + apply Forall_app. split.
      * apply Forall_lookup. by intros i r [_ ->]%push_rows_lookup.
      * by repeat constructor.
    + apply Forall_lookup. by intros i r [_ ->]%push_rows_lookup.
Qed.

(** C2.  For status [both], with a tenant count that is not negative, the
    generator returns a rent block of exactly
    [rentCount = max(totalCount - 1, tenantCount)] rows followed by exactly
    one final row.  The block follows the rule of the [rent] case: the row at
    index [i] is rented exactly when [i < tenantCount], a rented row takes its
    deposit and rent from [existingRows[i]] when present and has them empty
    otherwise, any other row is vacant with both empty; id, label, deposit and
    rent of each block row are those of the row the [rent] case generates at
    that index for [rentCount] rows.  The final row has the id
    [String(rentCount + 1)], the residence label (residential) or the
    direct-use label (commercial), an empty deposit and rent, and an empty
    [businessRegistration] exactly when commercial. *)
Theorem both_rows (totalCount tenantCount : Z) (existingRows : list LeaseRow)
    (isCommercial : bool) :
  0 ≤ tenantCount →
  let rentCount := Math_max2 (totalCount - 1) tenantCount in
  ∃ (block : list LeaseRow) (final : LeaseRow),
    autoSetUsageStatus totalCount tenantCount existingRows Both isCommercial
    = block ++ [final] ∧
    Z.of_nat (length block) = rentCount ∧
    (∀ (i : nat) (r : LeaseRow), block !! i = Some r →
       (usage r = LABEL_RENTED ↔ Z.of_nat i < tenantCount) ∧
       (Z.of_nat i < tenantCount →
          match existingRows !! i with
          | Some e => deposit r = deposit e ∧ rent r = rent e
          | None => deposit r = "" ∧ rent r = ""
          end) ∧
       (¬ Z.of_nat i < tenantCount →
          usage r = LABEL_VACANT ∧ deposit r = "" ∧ rent r = "")) ∧
    (∀ (i : nat) (r : LeaseRow), block !! i = Some r →
       ∃ r' : LeaseRow,
         autoSetUsageStatus rentCount tenantCount existingRows Rent isCommercial
           !! i = Some r' ∧
         id r = id r' ∧ usage r = usage r' ∧
         deposit r = deposit r' ∧ rent r = rent r') ∧
    final =
      {| id := String_of (rentCount + 1);
         usage := if isCommercial then LABEL_DIRECT_USE else LABEL_RESIDENCE;
         deposit := "";
         rent := "";
         businessRegistration := if isCommercial then Some "" else None |}.
Proof.
  intros Htenant. cbv zeta. unfold autoSetUsageStatus. simpl.
  eexists _, _. split; [reflexivity|]. split; [|split; [|split]].
  - rewrite push_rows_length. unfold Math_max2. lia.
  - intros i r [_ ->]%push_rows_lookup.
    by apply (rented_or_vacant tenantCount existingRows i).
  - intros i r [Hlt ->]%push_rows_lookup. eexists. split.
    + apply push_rows_lookup. split; [|reflexivity].
      unfold Math_max3, Math_max2 in *. lia.
    + done.
  - by destruct isCommercial.
Qed.

(** The rent block of [both] differs from the rows of [rent] in one field:
    in a commercial section each block row carries [businessRegistration],
    taken from [existingRows[i]] when that row has a non-empty one. *)
Lemma both_block_registration (totalCount tenantCount : Z)
    (existingRows : list LeaseRow) (isCommercial : bool) (i : nat)
    (r : LeaseRow) :
  Z.of_nat i < Math_max2 (totalCount - 1) tenantCount →
  autoSetUsageStatus totalCount tenantCount existingRows Both isCommercial !! i
  = Some r →
  businessRegistration r
  = if isCommercial
    then Some (default "" (existingRows !! i ≫= businessRegistration))
    else None.
Proof.
  intros Hlt. unfold autoSetUsageStatus. simpl.
  rewrite lookup_app_l.
  - intros [_ ->]%push_rows_lookup. simpl.
    destruct isCommercial; [|done]. simpl.
    by destruct (existingRows !! i).
  - pose proof (push_rows_length (Math_max2 (totalCount - 1) tenantCount)) as H.
    match goal with
    | |- (_ < length (push_rows _ ?body))%nat => specialize (H body)
    end.
    lia.
Qed.

Lemma both_rows_witness :
  0 ≤ 1 ∧
  ∃ (block : list LeaseRow) (final : LeaseRow),
    autoSetUsageStatus 3 1 [] Both true = block ++ [final] ∧
    Z.of_nat (length block) = 2.
Proof.
  split; [lia|].
  destruct (both_rows 3 1 [] true) as (block & final & Heq & Hlen & _); [lia|].
  exists block, final. split; [exact Heq | exact Hlen].
Defined.

Lemma autoSetUsageStatus_positional (totalCount tenantCount : Z)
    (existingRows : list LeaseRow) (status : OccupancyStatus)
    (isCommercial : bool) :
  0 ≤ tenantCount →
  positional_ids
    (autoSetUsageStatus totalCount tenantCount existingRows status isCommercial).
Proof.
  intros Htenant i r. unfold autoSetUsageStatus.
  destruct status; simpl.
  - by intros [_ ->]%push_rows_lookup.
  - by intros [_ ->]%push_rows_lookup.
  - intros Hi. apply lookup_app_Some in Hi as [Hi | [Hge Hi]].
    + by apply push_rows_lookup in Hi as [_ ->].
    + apply list_lookup_singleton_Some in Hi as [Hz <-]. simpl. f_equal.
      match type of Hz with
      | context [length (push_rows ?n ?body)] =>
          pose proof (push_rows_length n body) as Hlen
      end.
      unfold Math_max2 in *. lia.
  - by intros [_ ->]%push_rows_lookup.
Qed.

(** C8.  Under each of the four statuses, with a tenant count that is not
    negative, the row at 0-based position [i] of the generated list has the
    id [String(i + 1)]. *)
Theorem generated_ids_positional (totalCount tenantCount : Z)
    (existingRows : list LeaseRow) (status : OccupancyStatus)
    (isCommercial : bool) :
  0 ≤ tenantCount →
  ∀ (i : nat) (r : LeaseRow),
    autoSetUsageStatus totalCount tenantCount existingRows status isCommercial
      !! i = Some r →
    id r = String_of (Z.of_nat i + 1).
Proof. apply autoSetUsageStatus_positional. Qed.

Lemma generated_ids_positional_witness :
  0 ≤ 1 ∧
  ∃ r : LeaseRow,
    autoSetUsageStatus 3 1 [] Both false !! 2%nat = Some r ∧
    id r = "3"%string.
Proof.
  split; [lia|]. eexists. split; [vm_compute; reflexivity|].
  etrans.
  - apply (generated_ids_positional 3 1 [] Both false ltac:(lia) 2%nat).
    vm_compute. reflexivity.
  - vm_compute. reflexivity.
Defined.

(** ** The handlers *)

Lemma entry_Some (rec : InfoRecord) (k : OccupancyStatus) (si : SectionInfo) :
  rec !! k = Some si → entry rec k = Ok si.
Proof. unfold entry. by intros ->. Qed.

Lemma entry_None (rec : InfoRecord) (k : OccupancyStatus) :
  rec !! k = None → entry rec k = Throw TypeError.
Proof. unfold entry. by intros ->. Qed.

Lemma bind_Ok {A B : Type} (a : A) (f : A → result B) : Ok a ≫= f = f a.
Proof. reflexivity. Qed.

Lemma bind_Throw {A B : Type} (e : Error) (f : A → result B) :
  Throw e ≫= f = Throw e.
Proof. reflexivity. Qed.

(** Unfold a handler and read the entry it starts from. *)
Ltac read_entry H :=
  unfold handleStatusChange, handleTotalCountChange, handleTotalCountBlur,
    handleTenantCountChange, handleTenantCountBlur, handleRowUsageChange,
    handleRowDepositChange, handleRowRentChange,
    handleRowBusinessRegistrationChange, map_row;
  cbv zeta;
  first [ rewrite (entry_Some _ _ _ H), bind_Ok
        | rewrite (entry_None _ _ H), bind_Throw ].

Lemma map_row_Ok (rowId : string) (f : LeaseRow → LeaseRow) (s : HookState)
    (si : SectionInfo) :
  info s !! status s = Some si →
  map_row rowId f s
  = Ok (setInfo (status s)
          (with_leaseRows
             ((λ r, if bool_decide (id r = rowId) then f r else r)
                <$> leaseRows si) si) s).
Proof. intros Hsi. by read_entry Hsi. Qed.

(** A call returns a state only if the entry it addresses exists. *)
Lemma run_Ok_entry (type : SectionType) (c : Call) (s s' : HookState) :
  run type c s = Ok s' → is_Some (info s !! addressed c s).
Proof.
  destruct (info s !! addressed c s) as [si|] eqn:Hsi; [by eexists|].
  destruct c; simpl in *; by read_entry Hsi.
Qed.

(** What a call leaves: the state, or the state with the addressed entry
    replaced by some entry with the active status set by [changeStatus]. *)
Lemma run_Ok_shape (type : SectionType) (c : Call) (s s' : HookState) :
  run type c s = Ok s' →
  status s' = addressed c s ∧
  (info s' = info s ∨ ∃ si', info s' = <[addressed c s := si']> (info s)).
Proof.
  intros Hrun. destruct (run_Ok_entry _ _ _ _ Hrun) as [si Hsi].
  destruct c; simpl in *; revert Hrun; read_entry Hsi;
    try (intros [= <-]; split; [done|]; right; by eexists).
  - destruct (_ || _); intros [= <-]; (split; [done|]);
      [right; by eexists | by left].
  - destruct (is_empty_string _); intros [= <-]; (split; [done|]);
      [right; by eexists | by left].
Qed.

Lemma run_frame (type : SectionType) (c : Call) (s s' : HookState)
    (k : OccupancyStatus) :
  run type c s = Ok s' → k ≠ addressed c s → info s' !! k = info s !! k.
Proof.
  intros [_ [-> | [si' ->]]]%run_Ok_shape Hk; [done|].
  by rewrite lookup_insert_ne.
Qed.

Lemma handleStatusChange_Ok (type : SectionType) (newStatus : OccupancyStatus)
    (s : HookState) (si : SectionInfo) :
  info s !! newStatus = Some si →
  handleStatusChange type newStatus s
  = Ok {| status := newStatus;
          info :=
            <[newStatus :=
                with_leaseRows
                  (autoSetUsageStatus
                     (Math_max2 (or_zero (Number (totalCount si))) 1)
                     (or_zero (Number (tenantCount si)))
                     (leaseRows si) newStatus (isCommercial type)) si]>
              (info s) |}.
Proof. intros Hsi. by read_entry Hsi. Qed.

(** C3, as the code has it.  A call that returns replaces at most the entry of
    the status it addresses (the active status, or the target of
    [changeStatus]): the entry of every other status is unchanged.  Hence
    switching from [A] to another status [B] keeps the entry edited under [A]
    exactly; switching back to [A] keeps its [totalCount] and [tenantCount]
    (strings of digits) and stores as its rows the rows the generator
    derives, under [A], from the edited rows. *)
Theorem other_entries_kept (type : SectionType) (s : HookState) :
  (∀ (c : Call) (s' : HookState) (k : OccupancyStatus),
     run type c s = Ok s' → k ≠ addressed c s →
     info s' !! k = info s !! k) ∧
  (∀ (A B : OccupancyStatus) (edited : SectionInfo) (s1 s2 : HookState),
     status s = A → info s !! A = Some edited → B ≠ A →
     digits_only (totalCount edited) → digits_only (tenantCount edited) →
     run type (changeStatus B) s = Ok s1 →
     run type (changeStatus A) s1 = Ok s2 →
     info s1 !! A = Some edited ∧
     info s2 !! A
     = Some
         {| totalCount := totalCount edited;
            tenantCount := tenantCount edited;
            leaseRows :=
              autoSetUsageStatus
                (Math_max2 (or_zero (Number (totalCount edited))) 1)
                (or_zero (Number (tenantCount edited)))
                (leaseRows edited) A (isCommercial type) |}).
Proof.
  split.
  - intros c s' k. apply run_frame.
  - intros A B edited s1 s2 _ Hedited HBA _ _ HB HA.
    assert (info s1 !! A = Some edited) as H1.
    { rewrite <- Hedited. by apply (run_frame type (changeStatus B) s s1 A). }
    split; [done|]. simpl in HA.
    rewrite (handleStatusChange_Ok _ _ _ _ H1) in HA. injection HA as <-.
    simpl. by rewrite lookup_insert_eq.
Qed.

Lemma other_entries_kept_witness :
  ∃ s s1 s2 : HookState,
    run_all residential [changeStatus Rent; changeRowUsage "1" LABEL_RENTED]
      (useOccupancySection residential Residence) = Ok s ∧
    run residential (changeStatus Both) s = Ok s1 ∧
    run residential (changeStatus Rent) s1 = Ok s2 ∧
    info s1 !! Rent = info s !! Rent ∧
    (leaseRows <$> info s2 !! Rent)
    = Some (autoSetUsageStatus 1 0
              [mkLeaseRow "1" LABEL_RENTED "" "" None] Rent false).
Proof.
  eexists _, _, _.
  split; [vm_compute; reflexivity|].
  split; [vm_compute; reflexivity|].
  split; [vm_compute; reflexivity|].
  match goal with
  | |- info ?s1 !! _ = info ?s !! _ ∧ (_ <$> info ?s2 !! _) = _ =>
      destruct (other_entries_kept residential s) as [_ Hswitch];
      destruct (Hswitch Rent Both
                  (mkSectionInfo "1" "0" [mkLeaseRow "1" LABEL_RENTED "" "" None])
                  s1 s2) as [H1 H2];
      [ reflexivity | vm_compute; reflexivity | discriminate
      | vm_compute; reflexivity | vm_compute; reflexivity
      | vm_compute; reflexivity | vm_compute; reflexivity | ]
  end.
  split.
  - rewrite H1. vm_compute. reflexivity.
  - rewrite H2. reflexivity.
Defined.

(** C3, as stated, fails: in a residential section, select [rent], set the
    usage of row 1 to rented, select [both], select [rent] again.  The entry
    stored for [rent] is then not the edited one: its row has been
    regenerated as vacant. *)
Lemma switch_back_regenerates :
  ∃ edited back : HookState,
    run_all residential [changeStatus Rent; changeRowUsage "1" LABEL_RENTED]
      (useOccupancySection residential Residence) = Ok edited ∧
    run_all residential [changeStatus Both; changeStatus Rent] edited = Ok back ∧
    (λ si, usage <$> leaseRows si) <$> info edited !! Rent = Some [LABEL_RENTED] ∧
    (λ si, usage <$> leaseRows si) <$> info back !! Rent = Some [LABEL_VACANT] ∧
    info back !! Rent ≠ info edited !! Rent.
Proof.
  eexists _, _.
  split; [vm_compute; reflexivity|].
  split; [vm_compute; reflexivity|].
  split; [vm_compute; reflexivity|].
  split; [vm_compute; reflexivity|].
  vm_compute. discriminate.
Qed.

Lemma positional_ids_unique (rows : list LeaseRow) (i j : nat)
    (ri rj : LeaseRow) :
  positional_ids rows →
  rows !! i = Some ri → rows !! j = Some rj → id ri = id rj → i = j.
Proof.
  intros Hids Hi Hj Heq.
  rewrite (Hids _ _ Hi), (Hids _ _ Hj) in Heq.
  unfold String_of in Heq. apply (inj pretty) in Heq. lia.
Qed.

(** The rows a row handler stores. *)
Lemma map_row_rows (rowId : string) (f : LeaseRow → LeaseRow) (s : HookState)
    (si : SectionInfo) :
  info s !! status s = Some si →
  ∃ s' : HookState,
    map_row rowId f s = Ok s' ∧
    status s' = status s ∧
    ∃ si' : SectionInfo,
      info s' !! status s = Some si' ∧
      totalCount si' = totalCount si ∧
      tenantCount si' = tenantCount si ∧
      length (leaseRows si') = length (leaseRows si) ∧
      ∀ (i : nat) (r : LeaseRow), leaseRows si !! i = Some r →
        leaseRows si' !! i = Some (if decide (id r = rowId) then f r else r).
Proof.
  intros Hsi. eexists. split; [by apply map_row_Ok|]. split; [done|].
  eexists. split; [apply lookup_insert_eq|]. simpl.
  split; [done|]. split; [done|]. split; [by rewrite length_fmap|].
  intros i r Hi. rewrite list_lookup_fmap, Hi. simpl.
  by destruct (decide (id r = rowId));
    [rewrite bool_decide_eq_true_2 | rewrite bool_decide_eq_false_2].
Qed.

(** C6.  [changeRowUsage(rowId, newLabel)] keeps the length and the order of
    the active status's rows and both counts; a row whose id is [rowId] gets
    the new label, keeps its deposit and rent when the new label is the rented
    one and has them emptied otherwise, and keeps its other fields; every
    other row is unchanged.  In a well-formed state at most one row has the id
    [rowId]. *)
Theorem row_usage_change (type : SectionType) (s : HookState)
    (si : SectionInfo) (rowId newUsage : string) :
  info s !! status s = Some si →
  ∃ s' : HookState,
    run type (changeRowUsage rowId newUsage) s = Ok s' ∧
    status s' = status s ∧
    (∃ si' : SectionInfo,
       info s' !! status s = Some si' ∧
       totalCount si' = totalCount si ∧
       tenantCount si' = tenantCount si ∧
       length (leaseRows si') = length (leaseRows si) ∧
       ∀ (i : nat) (r : LeaseRow), leaseRows si !! i = Some r →
         ∃ r' : LeaseRow,
           leaseRows si' !! i = Some r' ∧
           if decide (id r = rowId) then
             id r' = id r ∧
             usage r' = newUsage ∧
             (newUsage = LABEL_RENTED →
                deposit r' = deposit r ∧ rent r' = rent r) ∧
             (newUsage ≠ LABEL_RENTED → deposit r' = "" ∧ rent r' = "") ∧
             businessRegistration r' = businessRegistration r
           else r' = r) ∧
    (wf_state type s →
     ∀ (i j : nat) (ri rj : LeaseRow),
       leaseRows si !! i = Some ri → leaseRows si !! j = Some rj →
       id ri = rowId → id rj = rowId → i = j).
Proof.
  intros Hsi. simpl. unfold handleRowUsageChange.
  destruct (map_row_rows rowId
    (λ r, {| id := id r; usage := newUsage;
             deposit := if bool_decide (newUsage = LABEL_RENTED)
                        then deposit r else "";
             rent := if bool_decide (newUsage = LABEL_RENTED)
                     then rent r else "";
             businessRegistration := businessRegistration r |}) s si Hsi)
    as (s' & Hrun & Hst & si' & Hsi' & Htot & Hten & Hlen & Hrows).
  exists s'. split; [done|]. split; [done|]. split.
  - exists si'. repeat (split; [done|]).
    intros i r Hi. eexists. split; [by apply Hrows|].
    destruct (decide (id r = rowId)); [|done]. simpl.
    split; [done|]. split; [done|].
    split; [|split; [|done]]; intros Hu.
    + by rewrite !bool_decide_eq_true_2.
    + by rewrite !bool_decide_eq_false_2.
  - intros Hwf i j ri rj Hi Hj Hri Hrj.
    apply (positional_ids_unique (leaseRows si) i j ri rj); [|done|done|congruence].
    by apply (wf_infos _ _ Hwf (status s)).
Qed.

Lemma row_usage_change_witness :
  ∃ s' : HookState,
    run commercial (changeRowUsage "1" LABEL_VACANT)
      (useOccupancySection commercial Rent) = Ok s' ∧
    status s' = Rent.
Proof.
  destruct (row_usage_change commercial (useOccupancySection commercial Rent)
              (mkSectionInfo "1" "0" [mkLeaseRow "1" "rent" "" "" None])
              "1" LABEL_VACANT) as (s' & Hrun & Hst & _).
  - vm_compute. reflexivity.
  - exists s'. split; [exact Hrun | exact Hst].
Defined.

(** C7.  On a stored total count of digits, [commitTotalCount] stores ["1"] as
    the total count of the active status when the stored string is empty or
    its value is below 1 and keeps the stored string otherwise; the tenant
    count, the rows and the active status are unchanged in both cases.  After
    [changeTotalCount("0")], [commitTotalCount()] leaves the stored total
    count ["1"]. *)
Theorem total_count_blur (type : SectionType) (s : HookState)
    (si : SectionInfo) :
  info s !! status s = Some si →
  digits_only (totalCount si) →
  (∃ (s' : HookState) (si' : SectionInfo),
     run type commitTotalCount s = Ok s' ∧
     status s' = status s ∧
     info s' !! status s = Some si' ∧
     totalCount si'
     = (if decide (totalCount si = "" ∨ Number (totalCount si) < 1)
        then "1" else totalCount si) ∧
     tenantCount si' = tenantCount si ∧
     leaseRows si' = leaseRows si) ∧
  (∃ (s1 s2 : HookState) (si2 : SectionInfo),
     run type (changeTotalCount "0") s = Ok s1 ∧
     run type commitTotalCount s1 = Ok s2 ∧
     info s2 !! status s = Some si2 ∧
     totalCount si2 = "1").
Proof.
  intros Hsi _. split.
  - simpl. read_entry Hsi. unfold is_empty_string.
    destruct (decide (totalCount si = "" ∨ Number (totalCount si) < 1))
      as [Hcond | Hcond].
    + assert (bool_decide (totalCount si = "")
              || bool_decide (Number (totalCount si) < 1) = true) as ->.
      { apply orb_true_iff. destruct Hcond; [left | right];
          by apply bool_decide_eq_true_2. }
      eexists _, _. split; [done|]. split; [done|].
      split; [apply lookup_insert_eq|]. done.
    + assert (bool_decide (totalCount si = "")
              || bool_decide (Number (totalCount si) < 1) = false) as ->.
      { apply orb_false_iff. split; apply bool_decide_eq_false_2; tauto. }
      by eexists _, _.
  - simpl. read_entry Hsi. eexists _, _, _. split; [done|].
    unfold handleTotalCountBlur, setInfo at 1. simpl status. simpl info.
    rewrite (entry_Some _ _ _ (lookup_insert_eq _ _ _)), bind_Ok. simpl.
    split; [done|]. split; [apply lookup_insert_eq|]. done.
Qed.

Lemma total_count_blur_witness :
  ∃ (s s' : HookState) (si' : SectionInfo),
    run residential (changeTotalCount "0")
      (useOccupancySection residential Residence) = Ok s ∧
    run residential commitTotalCount s = Ok s' ∧
    info s' !! Residence = Some si' ∧
    totalCount si' = "1"%string.
Proof.
  eexists.
  match goal with
  | |- ∃ s' si', ?r = Ok ?s ∧ _ =>
      assert (r = Ok s) as Hs by (vm_compute; reflexivity)
  end.
  match type of Hs with
  | _ = Ok ?s =>
      destruct (total_count_blur residential s
                  (mkSectionInfo "0" "0"
                     [mkLeaseRow "1" LABEL_RESIDING "" "" None]))
        as [(s' & si' & Hrun & _ & Hsi' & Htot & _) _];
      [ vm_compute; reflexivity | vm_compute; reflexivity | ]
  end.
  exists s', si'. split; [exact Hs|]. split; [exact Hrun|].
  split; [exact Hsi' | exact Htot].
Defined.

(** C9, as the code has it.  [changeRowBusinessRegistration(rowId, value)]
    sets the [businessRegistration] field to [value] on every row of the
    active status's list whose id is [rowId], whether or not the row had the
    field and whatever the type of the section; the other fields of that row,
    every other row, the length and order of the list and both counts are
    unchanged. *)
Theorem business_registration_change (type : SectionType) (s : HookState)
    (si : SectionInfo) (rowId value : string) :
  info s !! status s = Some si →
  ∃ (s' : HookState) (si' : SectionInfo),
    run type (changeRowBusinessRegistration rowId value) s = Ok s' ∧
    status s' = status s ∧
    info s' !! status s = Some si' ∧
    totalCount si' = totalCount si ∧
    tenantCount si' = tenantCount si ∧
    length (leaseRows si') = length (leaseRows si) ∧
    ∀ (i : nat) (r : LeaseRow), leaseRows si !! i = Some r →
      leaseRows si' !! i
      = Some (if decide (id r = rowId)
              then {| id := id r; usage := usage r; deposit := deposit r;
                      rent := rent r; businessRegistration := Some value |}
              else r).
Proof.
  intros Hsi. simpl. unfold handleRowBusinessRegistrationChange.
  destruct (map_row_rows rowId
    (λ r, {| id := id r; usage := usage r; deposit := deposit r;
             rent := rent r; businessRegistration := Some value |}) s si Hsi)
    as (s' & Hrun & Hst & si' & Hsi' & Htot & Hten & Hlen & Hrows).
  by exists s', si'.
Qed.

Lemma business_registration_change_witness :
  ∃ (s' : HookState) (si' : SectionInfo),
    run commercial (changeRowBusinessRegistration "1" "Y")
      (useOccupancySection commercial Rent) = Ok s' ∧
    info s' !! Rent = Some si' ∧
    leaseRows si' !! 0%nat = Some (mkLeaseRow "1" "rent" "" "" (Some "Y")).
Proof.
  destruct (business_registration_change commercial
              (useOccupancySection commercial Rent)
              (mkSectionInfo "1" "0" [mkLeaseRow "1" "rent" "" "" None])
              "1" "Y")
    as (s' & si' & Hrun & _ & Hsi' & _ & _ & _ & Hrows).
  - vm_compute. reflexivity.
  - exists s', si'. split; [exact Hrun|]. split; [exact Hsi'|].
    apply (Hrows 0%nat (mkLeaseRow "1" "rent" "" "" None)). reflexivity.
Defined.

(** C9, as stated, fails: in a residential section, whose rows have no
    [businessRegistration] field, the call adds the field to the row instead
    of leaving the row unchanged. *)
Lemma business_registration_added :
  ∃ s' : HookState,
    run residential (changeRowBusinessRegistration "1" "Y")
      (useOccupancySection residential Residence) = Ok s' ∧
    (leaseRows <$> info (useOccupancySection residential Residence) !! Residence)
    = Some [mkLeaseRow "1" "residence" "" "" None] ∧
    (leaseRows <$> info s' !! Residence)
    = Some [mkLeaseRow "1" "residence" "" "" (Some "Y")].
Proof.
  eexists. split; [vm_compute; reflexivity|].
  split; vm_compute; reflexivity.
Qed.

(** ** Well-formedness is kept *)

Lemma replace_non_digits_length (value : string) :
  (String.length (replace_non_digits value) ≤ String.length value)%nat.
Proof.
  induction value as [|c rest IH]; simpl; [done|].
  destruct (is_digit c); simpl; lia.
Qed.

Lemma digits_only_cons (c : ascii) (rest : string) :
  digits_only (String c rest) ↔ is_digit c = true ∧ digits_only rest.
Proof.
  unfold digits_only. simpl. split.
  - destruct (is_digit c) eqn:Hc.
    + by intros [= ->].
    + intros Heq. pose proof (replace_non_digits_length rest) as Hlen.
      rewrite Heq in Hlen. simpl in Hlen. lia.
  - intros [-> ->]. done.
Qed.

Lemma digits_only_replace (value : string) :
  digits_only (replace_non_digits value).
Proof.
  induction value as [|c rest IH]; simpl; [done|].
  destruct (is_digit c) eqn:Hc; [|done].
  by apply digits_only_cons.
Qed.

Lemma digit_value_nonneg (c : ascii) : is_digit c = true → 0 ≤ digit_value c.
Proof.
  unfold is_digit, digit_value. intros [Hlo _]%andb_true_iff.
  apply Nat.leb_le in Hlo. lia.
Qed.

Lemma Number_from_nonneg (s : string) (acc : Z) :
  digits_only s → 0 ≤ acc → 0 ≤ Number_from acc s.
Proof.
  revert acc. induction s as [|c rest IH]; intros acc Hs Hacc; simpl; [done|].
  apply digits_only_cons in Hs as [Hc Hrest].
  apply IH; [done|]. pose proof (digit_value_nonneg c Hc). lia.
Qed.

Lemma Number_nonneg (s : string) : digits_only s → 0 ≤ or_zero (Number s).
Proof.
  intros Hs. unfold or_zero. case_bool_decide; [done|].
  by apply Number_from_nonneg.
Qed.

Lemma field_or_empty_digits (f : LeaseRow → string)
    (existingRows : list LeaseRow) (i : nat) :
  Forall (λ r, digits_only (f r)) existingRows →
  digits_only (field_or_empty f (existingRows !! i)).
Proof.
  intros Hall. destruct (existingRows !! i) as [e|] eqn:He; simpl; [|done].
  by apply (Forall_lookup_1 _ _ _ _ Hall He).
Qed.

Lemma wf_row_fields (rows : list LeaseRow) :
  Forall wf_row rows →
  Forall (λ r, digits_only (deposit r)) rows ∧
  Forall (λ r, digits_only (rent r)) rows.
Proof.
  intros Hall. split; eapply Forall_impl; try exact Hall; by intros r [].
Qed.

Lemma autoSetUsageStatus_nonempty (totalCount tenantCount : Z)
    (existingRows : list LeaseRow) (status : OccupancyStatus)
    (isCommercial : bool) :
  autoSetUsageStatus totalCount tenantCount existingRows status isCommercial
  ≠ [].
Proof.
  intros Hnil. apply (f_equal (λ l, Z.of_nat (length l))) in Hnil.
  revert Hnil. unfold autoSetUsageStatus. destruct status; simpl;
    rewrite ?length_app, ?Nat2Z.inj_add, push_rows_length;
    unfold Math_max3; simpl; lia.
Qed.

Lemma autoSetUsageStatus_wf_rows (totalCount tenantCount : Z)
    (existingRows : list LeaseRow) (status : OccupancyStatus)
    (isCommercial : bool) :
  Forall wf_row existingRows →
  Forall wf_row
    (autoSetUsageStatus totalCount tenantCount existingRows status isCommercial).
Proof.
  intros [Hdep Hrent]%wf_row_fields.
  assert (∀ (i : nat) (label : string),
            wf_row
              {| id := String_of (Z.of_nat i + 1);
                 usage := label;
                 deposit :=
                   if bool_decide (label = LABEL_RENTED)
                   then field_or_empty deposit (existingRows !! i) else "";
                 rent :=
                   if bool_decide (label = LABEL_RENTED)
                   then field_or_empty rent (existingRows !! i) else "";
                 businessRegistration := None |}) as Hrow.
  { intros i label. split; simpl; case_bool_decide; try done;
      by apply field_or_empty_digits. }
  unfold autoSetUsageStatus. destruct status; simpl.
  - apply Forall_lookup. by intros i r [_ ->]%push_rows_lookup.
  - apply Forall_lookup. intros i r [_ ->]%push_rows_lookup. apply Hrow.
  - apply Forall_app. split; [|by repeat constructor].
    apply Forall_lookup. intros i r [_ ->]%push_rows_lookup.
    destruct (Hrow i (if bool_decide (Z.of_nat i < tenantCount)
                      then LABEL_RENTED else LABEL_VACANT)) as [Hd Hr].
    by split.
  - apply Forall_lookup. by intros i r [_ ->]%push_rows_lookup.
Qed.

Lemma wf_info_generated (total tenant : string) (totalCount tenantCount : Z)
    (existingRows : list LeaseRow) (status : OccupancyStatus)
    (isCommercial : bool) :
  digits_only total → digits_only tenant → 0 ≤ tenantCount →
  Forall wf_row existingRows →
  wf_info
    {| totalCount := total;
       tenantCount := tenant;
       leaseRows :=
         autoSetUsageStatus totalCount tenantCount existingRows status
           isCommercial |}.
Proof.
  intros Htot Hten Hnonneg Hrows. split; simpl; try done.
  - apply autoSetUsageStatus_nonempty.
  - by apply autoSetUsageStatus_positional.
  - by apply autoSetUsageStatus_wf_rows.
Qed.

Lemma wf_info_map_row (si : SectionInfo) (rowId : string)
    (f : LeaseRow → LeaseRow) :
  (∀ r, id (f r) = id r) →
  (∀ r, wf_row r → wf_row (f r)) →
  wf_info si →
  wf_info
    (with_leaseRows
       ((λ r, if bool_decide (id r = rowId) then f r else r) <$> leaseRows si)
       si).
Proof.
  intros Hid Hf [Htot Hten Hne Hids Hrows]. split; simpl; try done.
  - by destruct (leaseRows si).
  - intros i r. rewrite list_lookup_fmap.
    destruct (leaseRows si !! i) as [r0|] eqn:Hi; [|done].
    simpl. intros [= <-]. case_bool_decide; [rewrite Hid|]; by apply Hids.
  - apply Forall_fmap. eapply Forall_impl; [exact Hrows|].
    intros r Hr. simpl. case_bool_decide; [by apply Hf | done].
Qed.

Lemma wf_state_insert (type : SectionType) (s : HookState)
    (k active : OccupancyStatus) (si' : SectionInfo) :
  wf_state type s → applicable type k → applicable type active →
  wf_info si' →
  wf_state type {| status := active; info := <[k := si']> (info s) |}.
Proof.
  intros [Hst Hent Hinf] Hk Hactive Hsi'. split; simpl.
  - done.
  - intros k'. destruct (decide (k = k')) as [<- | Hne].
    + rewrite lookup_insert_eq. split; [done | by eexists].
    + rewrite lookup_insert_ne by done. apply Hent.
  - intros k' si. destruct (decide (k = k')) as [<- | Hne].
    + rewrite lookup_insert_eq. by intros [= <-].
    + rewrite lookup_insert_ne by done. apply Hinf.
Qed.

Lemma useOccupancySection_wf (type : SectionType)
    (initialStatus : OccupancyStatus) :
  applicable type initialStatus →
  wf_state type (useOccupancySection type initialStatus).
Proof.
  intros Hinit. split; simpl.
  - done.
  - intros k. unfold applicable.
    destruct type, k; vm_compute; split;
      first [ by intros [? [=]] | by eexists | intros; by repeat constructor
            | intros H; by repeat (apply elem_of_cons in H as [[=] | H];
                                   try by apply elem_of_nil in H) ].
  - intros k si Hk.
    assert (si = mkSectionInfo "1" "0"
                   [mkLeaseRow "1" (status_string k) "" "" None]) as ->.
    { destruct type, k; vm_compute in Hk; by inversion Hk. }
    split; simpl; try done.
    + intros [|i] r; [|done]. by intros [= <-].
    + by repeat constructor.
Qed.

(** A call on a well-formed state, with a status of the section's type when it
    is [changeStatus], returns a well-formed state. *)
Lemma run_wf (type : SectionType) (c : Call) (s : HookState) :
  wf_state type s →
  applicable type (addressed c s) →
  ∃ s' : HookState, run type c s = Ok s' ∧ wf_state type s'.
Proof.
  intros Hwf Hk.
  destruct (proj2 (wf_entries _ _ Hwf _) Hk) as [si Hsi].
  pose proof (wf_infos _ _ Hwf _ _ Hsi) as Hinfo.
  pose proof Hinfo as [Htot Hten Hne Hids Hrows].
  pose proof (wf_status _ _ Hwf) as Hactive.
  destruct c; simpl in Hk, Hsi |- *; read_entry Hsi.
  - eexists. split; [done|]. unfold setInfo. simpl. apply wf_state_insert;
      try done.
    apply wf_info_generated; try done. by apply Number_nonneg.
  - eexists. split; [done|]. destruct s as [st rec]. apply wf_state_insert;
      try done.
    apply wf_info_generated; try done; simpl.
    + apply digits_only_replace.
    + by apply Number_nonneg.
  - destruct (_ || _); eexists; (split; [done|]); [|done].
    destruct s as [st rec]. by apply wf_state_insert.
  - eexists. split; [done|]. destruct s as [st rec]. apply wf_state_insert;
      try done.
    apply wf_info_generated; try done; simpl.
    + apply digits_only_replace.
    + apply Number_nonneg, digits_only_replace.
  - destruct (is_empty_string _); eexists; (split; [done|]); [|done].
    destruct s as [st rec]. by apply wf_state_insert.
  - eexists. split; [done|]. destruct s as [st rec]. apply wf_state_insert;
      try done.
    apply wf_info_map_row; try done.
    intros r [Hd Hr]. split; simpl; by case_bool_decide.
  - eexists. split; [done|]. destruct s as [st rec]. apply wf_state_insert;
      try done.
    apply wf_info_map_row; try done.
    intros r [Hd Hr]. split; simpl; [apply digits_only_replace | done].
  - eexists. split; [done|]. destruct s as [st rec]. apply wf_state_insert;
      try done.
    apply wf_info_map_row; try done.
    intros r [Hd Hr]. split; simpl; [done | apply digits_only_replace].
  - eexists. split; [done|]. destruct s as [st rec]. apply wf_state_insert;
      try done.
    apply wf_info_map_row; try done.
    by intros r [Hd Hr].
Qed.

Lemma addressed_applicable (type : SectionType) (c : Call) (s s' : HookState) :
  wf_state type s → run type c s = Ok s' → applicable type (addressed c s).
Proof.
  intros Hwf Hrun. apply (wf_entries _ _ Hwf). by eapply run_Ok_entry.
Qed.

Lemma reachable_wf (type : SectionType) (s : HookState) :
  reachable type s → wf_state type s.
Proof.
  induction 1 as [initialStatus Hinit | s s' c _ IH Hrun].
  - by apply useOccupancySection_wf.
  - destruct (run_wf type c s IH) as (s'' & Hrun' & Hwf).
    + by eapply addressed_applicable.
    + congruence.
Qed.

(** C5, as stated, fails: a residential section has no entry for [self-use],
    and selecting that status in its first state raises a [TypeError]. *)
Lemma changeStatus_throws :
  reachable residential (useOccupancySection residential Residence) ∧
  run residential (changeStatus SelfUse)
    (useOccupancySection residential Residence) = Throw TypeError.
Proof.
  split; [|vm_compute; reflexivity].
  apply reachable_init. unfold applicable. vm_compute. repeat constructor.
Qed.

(** * Further properties of the generator *)

(** The test [usage === LABEL_RENTED] on the label the loops compute. *)
Lemma rented_test (b : bool) :
  bool_decide ((if b then LABEL_RENTED else LABEL_VACANT) = LABEL_RENTED) = b.
Proof.
  destruct b; [by apply bool_decide_eq_true_2|].
  apply bool_decide_eq_false_2, labels_distinct.
Qed.

Lemma push_rows_ext (rowCount : Z) (f g : nat → LeaseRow) :
  (∀ i : nat, Z.of_nat i < rowCount → f i = g i) →
  push_rows rowCount f = push_rows rowCount g.
Proof.
  intros Hfg. apply list_eq. intros i.
  destruct (push_rows rowCount f !! i) as [r|] eqn:Hf.
  - apply push_rows_lookup in Hf as [Hlt ->]. symmetry.
    apply push_rows_lookup. split; [done|]. by apply Hfg.
  - destruct (push_rows rowCount g !! i) as [r|] eqn:Hg; [|done].
    apply push_rows_lookup in Hg as [Hlt ->].
    assert (push_rows rowCount f !! i = Some (f i)) as Hsome
      by by apply push_rows_lookup.
    congruence.
Qed.

Lemma push_rows_nonpositive (rowCount : Z) (body : nat → LeaseRow) :
  rowCount ≤ 0 → push_rows rowCount body = [].
Proof.
  intros Hle. unfold push_rows.
  by replace (Z.to_nat rowCount) with 0%nat by lia.
Qed.

(** The length of the generated list under each status. *)
Lemma autoSetUsageStatus_length (totalCount tenantCount : Z)
    (existingRows : list LeaseRow) (status : OccupancyStatus)
    (isCommercial : bool) :
  Z.of_nat
    (length
       (autoSetUsageStatus totalCount tenantCount existingRows status
          isCommercial))
  = if bool_decide (status = Both)
    then Z.max 0 (Math_max2 (totalCount - 1) tenantCount) + 1
    else Math_max3 totalCount tenantCount 1.
Proof.
  unfold autoSetUsageStatus. destruct status; simpl;
    rewrite ?length_app, ?Nat2Z.inj_add, push_rows_length;
    unfold Math_max3, Math_max2; simpl; lia.
Qed.

(** The row at an index of the [rent] result. *)
Lemma rent_lookup (totalCount tenantCount : Z) (existingRows : list LeaseRow)
    (isCommercial : bool) (i : nat) :
  Z.of_nat i < Math_max3 totalCount tenantCount 1 →
  ∃ r : LeaseRow,
    autoSetUsageStatus totalCount tenantCount existingRows Rent isCommercial
      !! i = Some r ∧
    deposit r
    = (if bool_decide (Z.of_nat i < tenantCount)
       then field_or_empty deposit (existingRows !! i) else "") ∧
    rent r
    = (if bool_decide (Z.of_nat i < tenantCount)
       then field_or_empty rent (existingRows !! i) else "").
Proof.
  intros Hlt. eexists. split.
  - unfold autoSetUsageStatus. simpl. by apply push_rows_lookup.
  - simpl. by rewrite !rented_test.
Qed.

(** The row at an index of the rent block of the [both] result. *)
Lemma both_lookup (totalCount tenantCount : Z) (existingRows : list LeaseRow)
    (isCommercial : bool) (i : nat) :
  Z.of_nat i < Math_max2 (totalCount - 1) tenantCount →
  ∃ r : LeaseRow,
    autoSetUsageStatus totalCount tenantCount existingRows Both isCommercial
      !! i = Some r ∧
    deposit r
    = (if bool_decide (Z.of_nat i < tenantCount)
       then field_or_empty deposit (existingRows !! i) else "") ∧
    rent r
    = (if bool_decide (Z.of_nat i < tenantCount)
       then field_or_empty rent (existingRows !! i) else "") ∧
    businessRegistration r
    = spread_registration isCommercial
        (registration_or_empty (existingRows !! i)).
Proof.
  intros Hlt. eexists. split.
  - unfold autoSetUsageStatus. simpl. rewrite lookup_app_l.
    + by apply push_rows_lookup.
    + match goal with
      | |- (_ < length (push_rows ?n ?body))%nat =>
          pose proof (push_rows_length n body)
      end. lia.
  - simpl. by rewrite !rented_test.
Qed.

Lemma regenerate_own_result (totalCount tenantCount : Z)
    (existingRows : list LeaseRow) (status : OccupancyStatus)
    (isCommercial : bool) :
  autoSetUsageStatus totalCount tenantCount
    (autoSetUsageStatus totalCount tenantCount existingRows status isCommercial)
    status isCommercial
  = autoSetUsageStatus totalCount tenantCount existingRows status isCommercial.
Proof.
  destruct status; [done| | |done].
  - set (out := autoSetUsageStatus totalCount tenantCount existingRows Rent
                  isCommercial).
    unfold autoSetUsageStatus at 1. simpl.
    unfold out at 3, autoSetUsageStatus. simpl.
    apply push_rows_ext. intros i Hlt.
    destruct (rent_lookup totalCount tenantCount existingRows isCommercial i Hlt)
      as (r & Hr & Hd & Hre).
    fold out in Hr. rewrite Hr. simpl. rewrite Hd, Hre.
    rewrite !rented_test. by case_bool_decide.
  - set (out := autoSetUsageStatus totalCount tenantCount existingRows Both
                  isCommercial).
    unfold autoSetUsageStatus at 1. simpl.
    unfold out at 4, autoSetUsageStatus. simpl. f_equal.
    apply push_rows_ext. intros i Hlt.
    destruct (both_lookup totalCount tenantCount existingRows isCommercial i Hlt)
      as (r & Hr & Hd & Hre & Hbr).
    fold out in Hr. rewrite Hr. simpl. rewrite Hd, Hre, Hbr.
    assert (spread_registration isCommercial
              (default ""
                 (spread_registration isCommercial
                    (registration_or_empty (existingRows !! i))))
            = spread_registration isCommercial
                (registration_or_empty (existingRows !! i))) as ->.
    { by destruct isCommercial. }
    rewrite !rented_test. by case_bool_decide.
Qed.

(** X1.  The generator is idempotent: fed its own result as the existing
    rows, with the same counts, status and flag, it returns that result. *)
Theorem autoSetUsageStatus_idempotent (totalCount tenantCount : Z)
    (existingRows : list LeaseRow) (status : OccupancyStatus)
    (isCommercial : bool) :
  autoSetUsageStatus totalCount tenantCount
    (autoSetUsageStatus totalCount tenantCount existingRows status isCommercial)
    status isCommercial
  = autoSetUsageStatus totalCount tenantCount existingRows status isCommercial.
Proof. apply regenerate_own_result. Qed.

Lemma floor_total_same_rows (totalCount tenantCount : Z)
    (existingRows : list LeaseRow) (status : OccupancyStatus)
    (isCommercial : bool) :
  0 ≤ tenantCount →
  autoSetUsageStatus (Math_max2 totalCount 1) tenantCount existingRows status
    isCommercial
  = autoSetUsageStatus totalCount tenantCount existingRows status isCommercial.
Proof.
  intros Htenant. unfold autoSetUsageStatus.
  assert (Math_max3 (Math_max2 totalCount 1) tenantCount 1
          = Math_max3 totalCount tenantCount 1) as ->
    by (unfold Math_max3, Math_max2; lia).
  assert (Math_max2 (Math_max2 totalCount 1 - 1) tenantCount
          = Math_max2 (totalCount - 1) tenantCount) as ->
    by (unfold Math_max2; lia).
  done.
Qed.

(** X2.  With a tenant count that is not negative, flooring the total count
    at 1 before the call does not change the result: [handleStatusChange] and
    [handleTotalCountChange] floor it, [handleTenantCountChange] does not,
    and all three generate the same rows from the same counts. *)
Theorem total_floor_irrelevant (totalCount tenantCount : Z)
    (existingRows : list LeaseRow) (status : OccupancyStatus)
    (isCommercial : bool) :
  0 ≤ tenantCount →
  autoSetUsageStatus (Math_max2 totalCount 1) tenantCount existingRows status
    isCommercial
  = autoSetUsageStatus totalCount tenantCount existingRows status isCommercial.
Proof. apply floor_total_same_rows. Qed.

Lemma total_floor_irrelevant_witness :
  0 ≤ 2 ∧
  autoSetUsageStatus (Math_max2 0 1) 2 [] Both true
  = autoSetUsageStatus 0 2 [] Both true.
Proof. split; [lia|]. apply (total_floor_irrelevant 0 2 [] Both true). lia. Defined.

(** Rows labelled rented among the rows a loop pushes from index [a] on. *)
Lemma rented_count_seq (tenantCount : Z) (body : nat → LeaseRow) (k a : nat) :
  (∀ i : nat, usage (body i) = LABEL_RENTED ↔ Z.of_nat i < tenantCount) →
  Z.of_nat (rented_count (body <$> seq a k))
  = Z.max 0 (Z.min (Z.of_nat a + Z.of_nat k) tenantCount - Z.of_nat a).
Proof.
  intros Hbody. unfold rented_count. revert a.
  induction k as [|k IH]; intros a; simpl; [lia|].
  rewrite filter_cons. destruct (decide (usage (body a) = LABEL_RENTED)) as [Hr|Hr].
  - apply Hbody in Hr. simpl. rewrite Nat2Z.inj_succ, IH. lia.
  - rewrite Hbody in Hr. rewrite IH. lia.
Qed.

Lemma rented_count_push_rows (tenantCount rowCount : Z)
    (body : nat → LeaseRow) :
  (∀ i : nat, usage (body i) = LABEL_RENTED ↔ Z.of_nat i < tenantCount) →
  Z.of_nat (rented_count (push_rows rowCount body))
  = Z.max 0 (Z.min rowCount tenantCount).
Proof.
  intros Hbody. unfold push_rows.
  rewrite (rented_count_seq tenantCount) by done. lia.
Qed.

Lemma rented_count_app (rows rows' : list LeaseRow) :
  rented_count (rows ++ rows') = (rented_count rows + rented_count rows')%nat.
Proof. unfold rented_count. by rewrite filter_app, length_app. Qed.

(** X3.  With a tenant count that is not negative, the generated list holds
    exactly [tenantCount] rows labelled rented under [rent] and under [both],
    and none under [residence] and [self-use]. *)
Theorem rented_rows_counted (totalCount tenantCount : Z)
    (existingRows : list LeaseRow) (status : OccupancyStatus)
    (isCommercial : bool) :
  0 ≤ tenantCount →
  Z.of_nat
    (rented_count
       (autoSetUsageStatus totalCount tenantCount existingRows status
          isCommercial))
  = if bool_decide (status = Rent ∨ status = Both) then tenantCount else 0.
Proof.
  intros Htenant.
  assert (∀ i : nat,
            (if bool_decide (Z.of_nat i < tenantCount)
             then LABEL_RENTED else LABEL_VACANT) = LABEL_RENTED
            ↔ Z.of_nat i < tenantCount) as Hlabel.
  { intros i. case_bool_decide; [done|].
    split; [|done]. intros Heq. by destruct labels_distinct. }
  assert (∀ i : nat,
            (if isCommercial then LABEL_DIRECT_USE else LABEL_RESIDING)
            = LABEL_RENTED ↔ Z.of_nat i < 0) as Howner.
  { intros i. split; [|lia]. by destruct isCommercial. }
  unfold autoSetUsageStatus. destruct status; simpl.
  - rewrite (rented_count_push_rows 0) by done. lia.
  - rewrite (rented_count_push_rows tenantCount) by done.
    unfold Math_max3. lia.
  - rewrite rented_count_app, Nat2Z.inj_add.
    rewrite (rented_count_push_rows tenantCount) by done.
    unfold rented_count. rewrite filter_cons, decide_False
      by (by destruct isCommercial).
    simpl. unfold Math_max2. lia.
  - rewrite (rented_count_push_rows 0) by done. lia.
Qed.

Lemma rented_rows_counted_witness :
  0 ≤ 2 ∧ Z.of_nat (rented_count (autoSetUsageStatus 4 2 [] Both true)) = 2.
Proof. split; [lia|]. apply (rented_rows_counted 4 2 [] Both true). lia. Defined.

(** X4.  Outside [both], regenerating with a new total count from a result
    generated with the same tenant count gives what the generator gives from
    the original rows: growing or shrinking the total only adds or removes
    rows at the tail and loses no deposit or rent of a rented row. *)
Theorem total_change_absorbed (totalCount totalCount' tenantCount : Z)
    (existingRows : list LeaseRow) (status : OccupancyStatus)
    (isCommercial : bool) :
  status ≠ Both →
  autoSetUsageStatus totalCount' tenantCount
    (autoSetUsageStatus totalCount tenantCount existingRows status isCommercial)
    status isCommercial
  = autoSetUsageStatus totalCount' tenantCount existingRows status isCommercial.
Proof.
  intros Hst. destruct status; [done| |done|done].
  set (out := autoSetUsageStatus totalCount tenantCount existingRows Rent
                isCommercial).
  unfold autoSetUsageStatus at 1 2. simpl.
  apply push_rows_ext. intros i _.
  destruct (bool_decide_reflect (Z.of_nat i < tenantCount)) as [Hlt|Hge].
  - destruct (rent_lookup totalCount tenantCount existingRows isCommercial i)
      as (r & Hr & Hd & Hre); [unfold Math_max3; lia|].
    fold out in Hr. rewrite Hr. simpl. rewrite Hd, Hre.
    by rewrite !bool_decide_eq_true_2.
  - by rewrite !bool_decide_eq_false_2 by apply labels_distinct.
Qed.

Lemma total_change_absorbed_witness :
  Rent ≠ Both ∧
  autoSetUsageStatus 1 1
    (autoSetUsageStatus 3 1 [mkLeaseRow "1" LABEL_RENTED "500" "40" None] Rent
       false) Rent false
  = [mkLeaseRow "1" LABEL_RENTED "500" "40" None].
Proof.
  split; [discriminate|].
  etrans.
  - apply (total_change_absorbed 3 1 1
             [mkLeaseRow "1" LABEL_RENTED "500" "40" None] Rent false).
    discriminate.
  - vm_compute. reflexivity.
Defined.

(** X5.  Under [rent], lowering the tenant count to [low] and then raising it
    to [tenantCount] keeps the deposit and rent of the rows below [low] and
    leaves every row from [low] on with an empty deposit and rent: what a row
    held before it became vacant is not restored. *)
Theorem tenant_drop_clears (totalCount totalCount' low tenantCount : Z)
    (existingRows : list LeaseRow) (isCommercial : bool) :
  low ≤ tenantCount →
  ∀ (i : nat) (r : LeaseRow),
    autoSetUsageStatus totalCount tenantCount
      (autoSetUsageStatus totalCount' low existingRows Rent isCommercial)
      Rent isCommercial !! i = Some r →
    (Z.of_nat i < low →
       match existingRows !! i with
       | Some e => deposit r = deposit e ∧ rent r = rent e
       | None => deposit r = "" ∧ rent r = ""
       end) ∧
    (low ≤ Z.of_nat i → deposit r = "" ∧ rent r = "").
Proof.
  intros Hlow i r.
  set (mid := autoSetUsageStatus totalCount' low existingRows Rent isCommercial).
  unfold autoSetUsageStatus at 1. simpl.
  intros [_ ->]%push_rows_lookup. simpl. rewrite !rented_test. split.
  - intros Hi. rewrite !bool_decide_eq_true_2 by lia.
    destruct (rent_lookup totalCount' low existingRows isCommercial i)
      as (m & Hm & Hd & Hre); [unfold Math_max3; lia|].
    fold mid in Hm. rewrite Hm. simpl. rewrite Hd, Hre.
    rewrite !bool_decide_eq_true_2 by done.
    by destruct (existingRows !! i).
  - intros Hi. case_bool_decide; [|done].
    destruct (mid !! i) as [m|] eqn:Hm; [|done]. simpl.
    unfold mid, autoSetUsageStatus in Hm. simpl in Hm.
    apply push_rows_lookup in Hm as [_ ->]. simpl.
    by rewrite !rented_test, !bool_decide_eq_false_2 by lia.
Qed.

Lemma tenant_drop_clears_witness :
  0 ≤ 1 ∧
  ∃ r : LeaseRow,
    autoSetUsageStatus 1 1
      (autoSetUsageStatus 1 0 [mkLeaseRow "1" LABEL_RENTED "500" "40" None]
         Rent false) Rent false !! 0%nat = Some r ∧
    deposit r = ""%string ∧ rent r = ""%string.
Proof.
  split; [lia|]. eexists. split; [vm_compute; reflexivity|].
  apply (tenant_drop_clears 1 1 0 1
           [mkLeaseRow "1" LABEL_RENTED "500" "40" None] false ltac:(lia) 0%nat).
  - vm_compute. reflexivity.
  - simpl. lia.
Defined.

(** * Further properties of the hook *)

(** X7.  A call that returns neither adds nor removes an entry, and leaves as
    the active status the one it addresses: only [changeStatus] changes the
    active status. *)
Theorem run_keeps_keys (type : SectionType) (c : Call) (s s' : HookState) :
  run type c s = Ok s' →
  dom (info s') = dom (info s) ∧
  status s' = addressed c s ∧
  ((∀ newStatus, c ≠ changeStatus newStatus) → status s' = status s).
Proof.
  intros Hrun. pose proof (run_Ok_entry _ _ _ _ Hrun) as Hentry.
  destruct (run_Ok_shape _ _ _ _ Hrun) as [Hst [Hinfo | [si' Hinfo]]].
  - split; [by rewrite Hinfo|]. split; [done|].
    intros Hc. rewrite Hst. destruct c; try done. by destruct (Hc newStatus).
  - split; [|split; [done|]].
    + rewrite Hinfo, dom_insert_L. apply elem_of_dom in Hentry.
      apply subseteq_union_1_L. by apply singleton_subseteq_l.
    + intros Hc. rewrite Hst. destruct c; try done. by destruct (Hc newStatus).
Qed.

Lemma run_keeps_keys_witness :
  ∃ s' : HookState,
    run commercial (changeStatus Rent) (useOccupancySection commercial SelfUse)
    = Ok s' ∧
    dom (info s') = dom (info (useOccupancySection commercial SelfUse)) ∧
    status s' = Rent.
Proof.
  eexists. split; [vm_compute; reflexivity|].
  match goal with
  | |- dom (info ?s') = _ ∧ _ =>
      destruct (run_keeps_keys commercial (changeStatus Rent)
                  (useOccupancySection commercial SelfUse) s')
        as (Hdom & Hst & _); [vm_compute; reflexivity|]
  end.
  split; [exact Hdom | exact Hst].
Defined.

(** X8.  [commitTenantCount] stores ["0"] as the tenant count of the active
    status when the stored string is empty and returns the state unchanged
    otherwise; the total count and the rows are the same in both cases.
    After [changeTenantCount("")] it leaves the stored tenant count ["0"]. *)
Theorem tenant_count_blur (type : SectionType) (s : HookState)
    (si : SectionInfo) :
  info s !! status s = Some si →
  (tenantCount si = "" →
   run type commitTenantCount s
   = Ok (setInfo (status s)
           {| totalCount := totalCount si; tenantCount := "0";
              leaseRows := leaseRows si |} s)) ∧
  (tenantCount si ≠ "" → run type commitTenantCount s = Ok s) ∧
  (∃ (s1 s2 : HookState) (si2 : SectionInfo),
     run type (changeTenantCount "") s = Ok s1 ∧
     run type commitTenantCount s1 = Ok s2 ∧
     info s2 !! status s = Some si2 ∧
     tenantCount si2 = "0" ∧
     totalCount si2 = totalCount si).
Proof.
  intros Hsi. split; [|split].
  - intros Hempty. simpl. read_entry Hsi. unfold is_empty_string.
    by rewrite bool_decide_eq_true_2.
  - intros Hfull. simpl. read_entry Hsi. unfold is_empty_string.
    by rewrite bool_decide_eq_false_2.
  - simpl. read_entry Hsi. eexists _, _, _. split; [done|].
    unfold handleTenantCountBlur, setInfo at 1. simpl status. simpl info.
    rewrite (entry_Some _ _ _ (lookup_insert_eq _ _ _)), bind_Ok. simpl.
    split; [done|]. split; [apply lookup_insert_eq|]. done.
Qed.

Lemma tenant_count_blur_witness :
  ∃ (s1 s2 : HookState) (si2 : SectionInfo),
    run residential (changeTenantCount "")
      (useOccupancySection residential Rent) = Ok s1 ∧
    run residential commitTenantCount s1 = Ok s2 ∧
    info s2 !! Rent = Some si2 ∧
    tenantCount si2 = "0"%string.
Proof.
  destruct (tenant_count_blur residential (useOccupancySection residential Rent)
              (mkSectionInfo "1" "0" [mkLeaseRow "1" "rent" "" "" None]))
    as (_ & _ & s1 & s2 & si2 & H1 & H2 & H3 & H4 & _).
  - vm_compute. reflexivity.
  - exists s1, s2, si2. split; [exact H1|]. split; [exact H2|].
    split; [exact H3 | exact H4].
Defined.

(** X9.  [changeRowDeposit(rowId, value)] and [changeRowRent(rowId, value)]
    store [value] without its non-digit characters as the deposit, or the
    rent, of every row of the active status whose id is [rowId], whatever the
    usage label of the row; the other fields of that row, every other row,
    the length and order of the list and both counts are unchanged. *)
Theorem row_amount_change (type : SectionType) (s : HookState)
    (si : SectionInfo) (rowId value : string) :
  info s !! status s = Some si →
  (∃ (s' : HookState) (si' : SectionInfo),
     run type (changeRowDeposit rowId value) s = Ok s' ∧
     status s' = status s ∧
     info s' !! status s = Some si' ∧
     totalCount si' = totalCount si ∧
     tenantCount si' = tenantCount si ∧
     length (leaseRows si') = length (leaseRows si) ∧
     ∀ (i : nat) (r : LeaseRow), leaseRows si !! i = Some r →
       leaseRows si' !! i
       = Some (if decide (id r = rowId)
               then {| id := id r; usage := usage r;
                       deposit := replace_non_digits value; rent := rent r;
                       businessRegistration := businessRegistration r |}
               else r)) ∧
  (∃ (s' : HookState) (si' : SectionInfo),
     run type (changeRowRent rowId value) s = Ok s' ∧
     status s' = status s ∧
     info s' !! status s = Some si' ∧
     totalCount si' = totalCount si ∧
     tenantCount si' = tenantCount si ∧
     length (leaseRows si') = length (leaseRows si) ∧
     ∀ (i : nat) (r : LeaseRow), leaseRows si !! i = Some r →
       leaseRows si' !! i
       = Some (if decide (id r = rowId)
               then {| id := id r; usage := usage r; deposit := deposit r;
                       rent := replace_non_digits value;
                       businessRegistration := businessRegistration r |}
               else r)).
Proof.
  intros Hsi. split; simpl.
  - unfold handleRowDepositChange. cbv zeta.
    destruct (map_row_rows rowId
      (λ r, {| id := id r; usage := usage r;
               deposit := replace_non_digits value; rent := rent r;
               businessRegistration := businessRegistration r |}) s si Hsi)
      as (s' & Hrun & Hst & si' & Hsi' & Htot & Hten & Hlen & Hrows).
    by exists s', si'.
  - unfold handleRowRentChange. cbv zeta.
    destruct (map_row_rows rowId
      (λ r, {| id := id r; usage := usage r; deposit := deposit r;
               rent := replace_non_digits value;
               businessRegistration := businessRegistration r |}) s si Hsi)
      as (s' & Hrun & Hst & si' & Hsi' & Htot & Hten & Hlen & Hrows).
    by exists s', si'.
Qed.

Lemma row_amount_change_witness :
  ∃ (s' : HookState) (si' : SectionInfo),
    run residential (changeRowDeposit "1" "5,000 won")
      (useOccupancySection residential Rent) = Ok s' ∧
    info s' !! Rent = Some si' ∧
    leaseRows si' !! 0%nat = Some (mkLeaseRow "1" "rent" "5000" "" None).
Proof.
  destruct (row_amount_change residential (useOccupancySection residential Rent)
              (mkSectionInfo "1" "0" [mkLeaseRow "1" "rent" "" "" None])
              "1" "5,000 won")
    as [(s' & si' & Hrun & _ & Hsi' & _ & _ & _ & Hrows) _].
  - vm_compute. reflexivity.
  - exists s', si'. split; [exact Hrun|]. split; [exact Hsi'|].
    apply (Hrows 0%nat (mkLeaseRow "1" "rent" "" "" None)). reflexivity.
Defined.

Lemma map_row_twice (rowId : string) (f : LeaseRow → LeaseRow)
    (rows : list LeaseRow) :
  (∀ r, id (f r) = id r) → (∀ r, f (f r) = f r) →
  (λ r, if bool_decide (id r = rowId) then f r else r)
    <$> ((λ r, if bool_decide (id r = rowId) then f r else r) <$> rows)
  = (λ r, if bool_decide (id r = rowId) then f r else r) <$> rows.
Proof.
  intros Hid Hff. rewrite <- list_fmap_compose. apply list_fmap_ext.
  intros _ r _. simpl.
  destruct (bool_decide_reflect (id r = rowId)) as [Hr|Hr].
  - rewrite bool_decide_eq_true_2 by (by rewrite Hid). apply Hff.
  - by rewrite bool_decide_eq_false_2.
Qed.

Lemma map_row_idempotent (rowId : string) (f : LeaseRow → LeaseRow)
    (s s1 : HookState) :
  (∀ r, id (f r) = id r) → (∀ r, f (f r) = f r) →
  map_row rowId f s = Ok s1 → map_row rowId f s1 = Ok s1.
Proof.
  intros Hid Hff Hrun.
  destruct (info s !! status s) as [si|] eqn:Hsi.
  - rewrite (map_row_Ok _ _ _ _ Hsi) in Hrun. injection Hrun as <-.
    erewrite map_row_Ok by apply lookup_insert_eq.
    unfold setInfo, with_leaseRows. simpl.
    by rewrite map_row_twice, insert_insert_eq.
  - unfold map_row in Hrun. by rewrite (entry_None _ _ Hsi) in Hrun.
Qed.

(** X10.  Every handler call is idempotent: a call that returns a state
    returns that same state when repeated on it.  Selecting a status twice is
    selecting it once, typing the same count twice regenerates the same rows,
    and a repeated row edit or blur changes nothing. *)
Theorem run_idempotent (type : SectionType) (c : Call) (s s1 : HookState) :
  run type c s = Ok s1 →
  run type c s1 = Ok s1.
Proof.
  intros Hrun. destruct (run_Ok_entry _ _ _ _ Hrun) as [si Hsi].
  destruct c; simpl in Hrun, Hsi |- *.
  - rewrite (handleStatusChange_Ok _ _ _ _ Hsi) in Hrun. injection Hrun as <-.
    erewrite handleStatusChange_Ok by apply lookup_insert_eq.
    simpl. rewrite regenerate_own_result.
    by rewrite insert_insert_eq.
  - revert Hrun. read_entry Hsi. intros [= <-].
    unfold handleTotalCountChange, setInfo at 1. simpl status. simpl info.
    rewrite (entry_Some _ _ _ (lookup_insert_eq _ _ _)), bind_Ok.
    unfold setInfo, with_leaseRows, with_totalCount. simpl.
    by rewrite regenerate_own_result, insert_insert_eq.
  - revert Hrun. read_entry Hsi.
    destruct (is_empty_string (totalCount si)
              || bool_decide (Number (totalCount si) < 1)) eqn:Hcond;
      intros [= <-].
    + unfold handleTotalCountBlur, setInfo at 1. simpl status. simpl info.
      by rewrite (entry_Some _ _ _ (lookup_insert_eq _ _ _)), bind_Ok.
    + unfold handleTotalCountBlur. by rewrite (entry_Some _ _ _ Hsi), bind_Ok, Hcond.
  - revert Hrun. read_entry Hsi. intros [= <-].
    unfold handleTenantCountChange, setInfo at 1. simpl status. simpl info.
    rewrite (entry_Some _ _ _ (lookup_insert_eq _ _ _)), bind_Ok.
    unfold setInfo, with_leaseRows, with_tenantCount. simpl.
    by rewrite regenerate_own_result, insert_insert_eq.
  - revert Hrun. read_entry Hsi.
    destruct (is_empty_string (tenantCount si)) eqn:Hcond; intros [= <-].
    + unfold handleTenantCountBlur, setInfo at 1. simpl status. simpl info.
      by rewrite (entry_Some _ _ _ (lookup_insert_eq _ _ _)), bind_Ok.
    + unfold handleTenantCountBlur. by rewrite (entry_Some _ _ _ Hsi), bind_Ok, Hcond.
  - revert Hrun. apply map_row_idempotent; [done|].
    intros r. simpl. by case_bool_decide.
  - revert Hrun. by apply map_row_idempotent.
  - revert Hrun. by apply map_row_idempotent.
  - revert Hrun. by apply map_row_idempotent.
Qed.

Lemma run_idempotent_witness :
  ∃ s1 : HookState,
    run commercial (changeStatus Both) (useOccupancySection commercial SelfUse)
    = Ok s1 ∧
    run commercial (changeStatus Both) s1 = Ok s1.
Proof.
  eexists. split; [vm_compute; reflexivity|].
  apply (run_idempotent commercial (changeStatus Both)
           (useOccupancySection commercial SelfUse)).
  vm_compute. reflexivity.
Defined.

(** X11.  An edit of a count survives a change of status and back: after
    [changeTotalCount] or [changeTenantCount] under [A], selecting another
    status [B] and then [A] again leaves for [A] exactly the entry the edit
    stored, and [A] is the active status. *)
Theorem count_edit_round_trip (type : SectionType) (c : Call)
    (A B : OccupancyStatus) (s s1 s2 s3 : HookState) :
  (∃ value, c = changeTotalCount value ∨ c = changeTenantCount value) →
  status s = A → B ≠ A →
  run type c s = Ok s1 →
  run type (changeStatus B) s1 = Ok s2 →
  run type (changeStatus A) s2 = Ok s3 →
  info s3 !! A = info s1 !! A ∧ status s3 = A.
Proof.
  intros [value Hc] HA HBA Hedit HB Hback.
  destruct (run_Ok_shape _ _ _ _ HB) as [_ _].
  destruct (run_Ok_shape _ _ _ _ Hback) as [Hst3 _]. simpl in Hst3.
  split; [|done].
  assert (info s2 !! A = info s1 !! A) as Hkept
    by by apply (run_frame type (changeStatus B) s1 s2 A).
  destruct (run_Ok_entry _ _ _ _ Hedit) as [si Hsi].
  assert (addressed c s = A) as Haddr by (by destruct Hc as [-> | ->]).
  rewrite Haddr in Hsi. rewrite <- HA in Hsi.
  simpl in Hback.
  destruct Hc as [-> | ->]; simpl in Hedit; revert Hedit; read_entry Hsi;
    intros [= <-]; simpl in *; rewrite HA in *;
    rewrite lookup_insert_eq in Hkept |- *;
    rewrite (handleStatusChange_Ok _ _ _ _ Hkept) in Hback;
    injection Hback as <-; simpl; rewrite lookup_insert_eq; f_equal;
    unfold with_leaseRows; simpl; f_equal.
  - apply regenerate_own_result.
  - rewrite floor_total_same_rows
      by apply Number_nonneg, digits_only_replace.
    apply regenerate_own_result.
Qed.

Lemma count_edit_round_trip_witness :
  ∃ s1 s2 s3 : HookState,
    run residential (changeTenantCount "2")
      (useOccupancySection residential Both) = Ok s1 ∧
    run residential (changeStatus Rent) s1 = Ok s2 ∧
    run residential (changeStatus Both) s2 = Ok s3 ∧
    info s3 !! Both = info s1 !! Both.
Proof.
  eexists _, _, _.
  split; [vm_compute; reflexivity|].
  split; [vm_compute; reflexivity|].
  split; [vm_compute; reflexivity|].
  match goal with
  | |- info ?s3 !! _ = info ?s1 !! _ =>
      destruct (count_edit_round_trip residential (changeTenantCount "2")
                  Both Rent (useOccupancySection residential Both) s1
                  (mkHookState Rent (<[Rent := mkSectionInfo "1" "0"
                      [mkLeaseRow "1" LABEL_VACANT "" "" None]]> (info s1)))
                  s3) as [Hinfo _]
  end.
  - exists "2"%string. right. reflexivity.
  - reflexivity.
  - discriminate.
  - vm_compute. reflexivity.
  - vm_compute. reflexivity.
  - vm_compute. reflexivity.
  - exact Hinfo.
Defined.

(** ** Invariants of the reachable states *)

Lemma or_zero_id (n : Z) : or_zero n = n.
Proof. unfold or_zero. by case_bool_decide. Qed.

Lemma rows_match_insert (s : HookState) (k active : OccupancyStatus)
    (si' : SectionInfo) :
  rows_match_counts s →
  Z.of_nat (length (leaseRows si')) = stored_row_count k si' →
  rows_match_counts {| status := active; info := <[k := si']> (info s) |}.
Proof.
  intros Hinv Hlen k' si. simpl. destruct (decide (k = k')) as [<- | Hne].
  - rewrite lookup_insert_eq. by intros [= <-].
  - rewrite lookup_insert_ne by done. apply Hinv.
Qed.

(** The generator returns as many rows as the counts it was called with ask
    for, whether or not the total was floored at 1. *)
Lemma generated_match_counts (total tenant : string) (floor : bool)
    (existingRows : list LeaseRow) (k : OccupancyStatus) (isCommercial : bool) :
  digits_only tenant →
  let totalCount :=
    if floor then Math_max2 (or_zero (Number total)) 1
    else or_zero (Number total) in
  let si' :=
    {| totalCount := total;
       tenantCount := tenant;
       leaseRows :=
         autoSetUsageStatus totalCount (or_zero (Number tenant)) existingRows k
           isCommercial |} in
  Z.of_nat (length (leaseRows si')) = stored_row_count k si'.
Proof.
  intros Hten. cbv zeta. simpl leaseRows.
  rewrite autoSetUsageStatus_length. unfold stored_row_count. simpl.
  pose proof (Number_nonneg tenant Hten).
  destruct floor; case_bool_decide; unfold Math_max2, Math_max3; lia.
Qed.

Lemma run_rows_match (type : SectionType) (c : Call) (s s' : HookState) :
  wf_state type s → rows_match_counts s →
  run type c s = Ok s' →
  rows_match_counts s'.
Proof.
  intros Hwf Hinv Hrun. destruct (run_Ok_entry _ _ _ _ Hrun) as [si Hsi].
  pose proof (wf_infos _ _ Hwf _ _ Hsi) as [Htot Hten _ _ _].
  pose proof (Hinv _ _ Hsi) as Hlen.
  pose proof (Number_nonneg _ Htot) as Htotal.
  pose proof (Number_nonneg _ Hten) as Htenant.
  destruct c; simpl in Hrun, Hsi, Hlen; revert Hrun; read_entry Hsi.
  - intros [= <-]. unfold setInfo. simpl. apply rows_match_insert; [done|].
    by apply (generated_match_counts (totalCount si) (tenantCount si) true).
  - intros [= <-]. apply rows_match_insert; [done|].
    by apply (generated_match_counts (replace_non_digits value)
                (tenantCount si) true).
  - destruct (is_empty_string (totalCount si)
              || bool_decide (Number (totalCount si) < 1)) eqn:Hcond;
      intros [= <-]; [|done].
    apply rows_match_insert; [done|]. simpl. rewrite Hlen.
    assert (or_zero (Number (totalCount si)) = 0) as Hzero.
    { rewrite or_zero_id in *. apply orb_true_iff in Hcond as [Hempty | Hlt].
      - apply bool_decide_eq_true in Hempty. by rewrite Hempty.
      - apply bool_decide_eq_true in Hlt. lia. }
    unfold stored_row_count. simpl. rewrite Hzero.
    change (or_zero (Number "1")) with 1.
    destruct (bool_decide (status s = Both)); unfold Math_max2, Math_max3; lia.
  - intros [= <-]. apply rows_match_insert; [done|].
    apply (generated_match_counts (totalCount si) (replace_non_digits value)
             false).
    apply digits_only_replace.
  - destruct (is_empty_string (tenantCount si)) eqn:Hcond;
      intros [= <-]; [|done].
    apply rows_match_insert; [done|]. simpl. rewrite Hlen.
    apply bool_decide_eq_true in Hcond.
    unfold stored_row_count. simpl. by rewrite Hcond.
  - intros [= <-]. apply rows_match_insert; [done|].
    simpl. by rewrite length_fmap.
  - intros [= <-]. apply rows_match_insert; [done|].
    simpl. by rewrite length_fmap.
  - intros [= <-]. apply rows_match_insert; [done|].
    simpl. by rewrite length_fmap.
  - intros [= <-]. apply rows_match_insert; [done|].
    simpl. by rewrite length_fmap.
Qed.

Lemma useOccupancySection_rows_match (type : SectionType)
    (initialStatus : OccupancyStatus) :
  rows_match_counts (useOccupancySection type initialStatus).
Proof.
  intros k si Hk.
  assert (si = mkSectionInfo "1" "0"
                 [mkLeaseRow "1" (status_string k) "" "" None]) as ->.
  { destruct type, k; vm_compute in Hk; by inversion Hk. }
  by destruct k.
Qed.

Lemma reachable_rows_match (type : SectionType) (s : HookState) :
  reachable type s → rows_match_counts s.
Proof.
  induction 1 as [initialStatus Hinit | s s' c Hreach IH Hrun].
  - apply useOccupancySection_rows_match.
  - eapply run_rows_match; [|done|done]. by apply reachable_wf.
Qed.

(** X12.  In every reachable state each entry holds as many rows as its stored
    counts ask for: [max(total, tenant, 1)] rows under [residence], [rent]
    and [self-use], [max(total - 1, tenant) + 1] rows under [both], the
    stored strings being read as the handlers read them. *)
Theorem reachable_row_counts (type : SectionType) (s : HookState)
    (k : OccupancyStatus) (si : SectionInfo) :
  reachable type s →
  info s !! k = Some si →
  let total := Number (totalCount si) in
  let tenant := Number (tenantCount si) in
  Z.of_nat (length (leaseRows si))
  = if bool_decide (k = Both) then Z.max (total - 1) tenant + 1
    else Z.max (Z.max total tenant) 1.
Proof.
  intros Hreach Hk. cbv zeta.
  rewrite (reachable_rows_match type s Hreach k si Hk).
  unfold stored_row_count. by rewrite !or_zero_id.
Qed.

Lemma reachable_row_counts_witness :
  ∃ (s : HookState) (si : SectionInfo),
    run residential (changeTenantCount "3")
      (useOccupancySection residential Both) = Ok s ∧
    info s !! Both = Some si ∧
    Z.of_nat (length (leaseRows si)) = 4.
Proof.
  eexists _, _. split; [vm_compute; reflexivity|].
  split; [vm_compute; reflexivity|].
  match goal with
  | |- Z.of_nat (length (leaseRows ?si)) = _ =>
      etrans;
      [ apply (reachable_row_counts residential
                 (mkHookState Both
                    (<[Both := si]> (createInitialInfoState residential)))
                 Both si)
      | vm_compute; reflexivity ]
  end.
  - apply (reachable_step residential (useOccupancySection residential Both) _
             (changeTenantCount "3")).
    + apply reachable_init. unfold applicable. vm_compute. repeat constructor.
    + vm_compute. reflexivity.
  - vm_compute. reflexivity.
Defined.

(** X13.  In every reachable state the active status is one of the section's
    type, the entries are exactly those of the statuses of the type, and each
    entry has at least one row, rows with pairwise distinct ids, the id
    [String(i + 1)] at position [i], and only digits in both counts and in
    every deposit and rent. *)
Theorem reachable_entries (type : SectionType) (s : HookState) :
  reachable type s →
  status s ∈ statuses_of type ∧
  (∀ k : OccupancyStatus, is_Some (info s !! k) ↔ k ∈ statuses_of type) ∧
  ∀ (k : OccupancyStatus) (si : SectionInfo), info s !! k = Some si →
    leaseRows si ≠ [] ∧
    NoDup (id <$> leaseRows si) ∧
    (∀ (i : nat) (r : LeaseRow),
       leaseRows si !! i = Some r → id r = String_of (Z.of_nat i + 1)) ∧
    digits_only (totalCount si) ∧
    digits_only (tenantCount si) ∧
    Forall (λ r, digits_only (deposit r) ∧ digits_only (rent r)) (leaseRows si).
Proof.
  intros [Hst Hent Hinf]%reachable_wf. split; [done|]. split; [done|].
  intros k si Hk. destruct (Hinf k si Hk) as [Htot Hten Hne Hids Hrows].
  split; [done|]. split; [|split; [done|split; [done|split; [done|]]]].
  - apply NoDup_alt. intros i j x. rewrite !list_lookup_fmap.
    destruct (leaseRows si !! i) as [ri|] eqn:Hi; [|done].
    destruct (leaseRows si !! j) as [rj|] eqn:Hj; [|done].
    simpl. intros [= <-] [= Heq].
    by apply (positional_ids_unique (leaseRows si) i j ri rj).
  - eapply Forall_impl; [exact Hrows|]. by intros r [].
Qed.

Lemma reachable_entries_witness :
  Both ∈ statuses_of commercial ∧
  ∀ k : OccupancyStatus,
    is_Some (info (useOccupancySection commercial Both) !! k)
    ↔ k ∈ statuses_of commercial.
Proof.
  destruct (reachable_entries commercial (useOccupancySection commercial Both))
    as (Hst & Hent & _).
  - apply reachable_init. unfold applicable. vm_compute. repeat constructor.
  - split; [exact Hst | exact Hent].
Defined.

(** X15.  Only the digits of what is typed reach the state: each handler that
    takes a typed value gives the same result for the value and for the value
    without its non-digit characters. *)
Theorem typed_value_sanitized (type : SectionType) (rowId value : string)
    (s : HookState) :
  run type (changeTotalCount value) s
  = run type (changeTotalCount (replace_non_digits value)) s ∧
  run type (changeTenantCount value) s
  = run type (changeTenantCount (replace_non_digits value)) s ∧
  run type (changeRowDeposit rowId value) s
  = run type (changeRowDeposit rowId (replace_non_digits value)) s ∧
  run type (changeRowRent rowId value) s
  = run type (changeRowRent rowId (replace_non_digits value)) s.
Proof.
  pose proof (digits_only_replace value) as Hidem. unfold digits_only in Hidem.
  simpl. unfold handleTotalCountChange, handleTenantCountChange,
    handleRowDepositChange, handleRowRentChange. cbv zeta.
  by rewrite !Hidem.
Qed.

(** ** The [businessRegistration] field across regenerations *)

(** X16.  Under [both], a row of the rent block carries no
    [businessRegistration] in a residential section; in a commercial section
    it carries the one of [existingRows[i]], or the empty string when that
    row is missing or has none: unlike deposit and rent, the field is kept
    for vacant rows too. *)
Theorem both_block_keeps_registration (totalCount tenantCount : Z)
    (existingRows : list LeaseRow) (isCommercial : bool) (i : nat)
    (r : LeaseRow) :
  Z.of_nat i < Math_max2 (totalCount - 1) tenantCount →
  autoSetUsageStatus totalCount tenantCount existingRows Both isCommercial !! i
  = Some r →
  businessRegistration r
  = if isCommercial
    then Some (default "" (existingRows !! i ≫= businessRegistration))
    else None.
Proof. apply both_block_registration. Qed.

Lemma both_block_keeps_registration_witness :
  0 < Math_max2 (2 - 1) 1 ∧
  ∃ r : LeaseRow,
    autoSetUsageStatus 2 1 [mkLeaseRow "1" LABEL_RENTED "500" "40" (Some "Y")]
      Both true !! 0%nat = Some r ∧
    businessRegistration r = Some "Y"%string.
Proof.
  split; [vm_compute; reflexivity|]. eexists.
  split; [vm_compute; reflexivity|].
  etrans.
  - apply (both_block_keeps_registration 2 1
             [mkLeaseRow "1" LABEL_RENTED "500" "40" (Some "Y")] true 0%nat).
    + vm_compute. reflexivity.
    + vm_compute. reflexivity.
  - reflexivity.
Defined.

(** X17.  Under [rent] every call that regenerates the rows ([changeStatus]
    to [rent], [changeTotalCount], [changeTenantCount]) leaves the rows of
    [rent] without a [businessRegistration] field, in a commercial section
    too: a value stored by [changeRowBusinessRegistration] does not survive
    it. *)
Theorem rent_regeneration_drops_registration (type : SectionType) (c : Call)
    (s s' : HookState) (si' : SectionInfo) :
  regenerates c = true →
  addressed c s = Rent →
  run type c s = Ok s' →
  info s' !! Rent = Some si' →
  Forall (λ r, businessRegistration r = None) (leaseRows si').
Proof.
  intros Hregen Haddr Hrun Hsi'.
  destruct (run_Ok_entry _ _ _ _ Hrun) as [si Hsi]. rewrite Haddr in Hsi.
  assert (∃ totalCount tenantCount existingRows,
            leaseRows si'
            = autoSetUsageStatus totalCount tenantCount existingRows Rent
                (isCommercial type)) as (t & n & rows & ->).
  { destruct c; try discriminate Hregen; simpl in Haddr, Hrun; subst;
      [| rewrite <- Haddr in Hsi | rewrite <- Haddr in Hsi];
      revert Hrun; read_entry Hsi; intros [= <-]; simpl in Hsi';
      rewrite ?Haddr in Hsi'; rewrite lookup_insert_eq in Hsi';
      injection Hsi' as <-; simpl; rewrite ?Haddr; by eexists _, _, _. }
  apply Forall_lookup. intros i r. unfold autoSetUsageStatus. simpl.
  by intros [_ ->]%push_rows_lookup.
Qed.

Lemma rent_regeneration_drops_registration_witness :
  ∃ (s1 s2 : HookState) (si1 si2 : SectionInfo),
    run commercial (changeRowBusinessRegistration "1" "Y")
      (useOccupancySection commercial Rent) = Ok s1 ∧
    info s1 !! Rent = Some si1 ∧
    businessRegistration <$> leaseRows si1 = [Some "Y"%string] ∧
    run commercial (changeTotalCount "1") s1 = Ok s2 ∧
    info s2 !! Rent = Some si2 ∧
    Forall (λ r, businessRegistration r = None) (leaseRows si2).
Proof.
  eexists _, _, _, _.
  split; [vm_compute; reflexivity|].
  split; [vm_compute; reflexivity|].
  split; [vm_compute; reflexivity|].
  split; [vm_compute; reflexivity|].
  split; [vm_compute; reflexivity|].
  match goal with
  | |- Forall _ (leaseRows ?si2) =>
      apply (rent_regeneration_drops_registration commercial
               (changeTotalCount "1")
               (mkHookState Rent
                  (<[Rent := mkSectionInfo "1" "0"
                       [mkLeaseRow "1" "rent" "" "" (Some "Y"%string)]]>
                     (createInitialInfoState commercial)))
               (mkHookState Rent
                  (<[Rent := si2]> (createInitialInfoState commercial)))
               si2)
  end.
  - reflexivity.
  - reflexivity.
  - vm_compute. reflexivity.
  - vm_compute. reflexivity.
Defined.

(** * Calls on bounded counts *)

(** The generation loops have no upper bound of their own: a call pushes as
    many rows as the counts ask for.  The statements below therefore bound
    the counts by a [limit] and bound, with it, the rows every list holds. *)

Lemma counts_within_insert (limit : Z) (s : HookState)
    (k active : OccupancyStatus) (si' : SectionInfo) :
  counts_within limit s →
  Number (totalCount si') ≤ limit → Number (tenantCount si') ≤ limit →
  counts_within limit {| status := active; info := <[k := si']> (info s) |}.
Proof.
  intros Hin Htot Hten k' si. simpl. destruct (decide (k = k')) as [<- | Hne].
  - rewrite lookup_insert_eq. by intros [= <-].
  - rewrite lookup_insert_ne by done. apply Hin.
Qed.

Lemma run_counts_within (type : SectionType) (limit : Z) (c : Call)
    (s s' : HookState) :
  1 ≤ limit → counts_within limit s → typed_within limit c →
  run type c s = Ok s' →
  counts_within limit s'.
Proof.
  intros Hlimit Hin Htyped Hrun.
  destruct (run_Ok_entry _ _ _ _ Hrun) as [si Hsi].
  destruct (Hin _ _ Hsi) as [Htot Hten].
  destruct c; simpl in Hrun, Hsi, Htyped; revert Hrun; read_entry Hsi.
  - intros [= <-]. unfold setInfo. simpl. by apply counts_within_insert.
  - intros [= <-]. by apply counts_within_insert.
  - destruct (_ || _); intros [= <-]; [|done].
    by apply counts_within_insert.
  - intros [= <-]. by apply counts_within_insert.
  - destruct (is_empty_string _); intros [= <-]; [|done].
    apply counts_within_insert; try done. simpl.
    change (Number "0") with 0. lia.
  - intros [= <-]. by apply counts_within_insert.
  - intros [= <-]. by apply counts_within_insert.
  - intros [= <-]. by apply counts_within_insert.
  - intros [= <-]. by apply counts_within_insert.
Qed.

Lemma useOccupancySection_counts_within (type : SectionType) (limit : Z)
    (initialStatus : OccupancyStatus) :
  1 ≤ limit → counts_within limit (useOccupancySection type initialStatus).
Proof.
  intros Hlimit k si Hk.
  assert (si = mkSectionInfo "1" "0"
                 [mkLeaseRow "1" (status_string k) "" "" None]) as ->.
  { destruct type, k; vm_compute in Hk; by inversion Hk. }
  simpl. change (Number "1") with 1. change (Number "0") with 0. lia.
Qed.

(** Rows held by an entry whose length follows its counts, when the counts
    are within the limit. *)
Lemma rows_within (limit : Z) (s : HookState) (k : OccupancyStatus)
    (si : SectionInfo) :
  1 ≤ limit → rows_match_counts s → counts_within limit s →
  info s !! k = Some si →
  Z.of_nat (length (leaseRows si)) ≤ limit + 1.
Proof.
  intros Hlimit Hmatch Hin Hk. rewrite (Hmatch k si Hk).
  destruct (Hin k si Hk) as [Htot Hten].
  unfold stored_row_count. rewrite !or_zero_id.
  case_bool_decide; unfold Math_max2, Math_max3; lia.
Qed.

(** C5, as the code has it.  Take a hook built with an initial status of its
    type, a state it can reach whose stored counts are at most [limit], and a
    call whose typed count, read without its non-digit characters, is at most
    [limit], for a [limit] of at least 1.  With any strings, and with a status
    that the section's type has when the call is [changeStatus], the call
    returns a well-formed state whose stored counts are again at most [limit]
    and whose lists hold at most [limit + 1] rows each.  [changeStatus] with a
    status the section's type does not have raises a [TypeError]. *)
Theorem calls_succeed (type : SectionType) (limit : Z) (s : HookState)
    (c : Call) :
  reachable type s →
  1 ≤ limit → counts_within limit s → typed_within limit c →
  ((∀ newStatus, c = changeStatus newStatus → applicable type newStatus) →
   ∃ s' : HookState,
     run type c s = Ok s' ∧ wf_state type s' ∧ reachable type s' ∧
     counts_within limit s' ∧
     ∀ (k : OccupancyStatus) (si : SectionInfo), info s' !! k = Some si →
       Z.of_nat (length (leaseRows si)) ≤ limit + 1) ∧
  (∀ newStatus, c = changeStatus newStatus → ¬ applicable type newStatus →
   run type c s = Throw TypeError).
Proof.
  intros Hreach Hlimit Hin Htyped.
  pose proof (reachable_wf type s Hreach) as Hwf. split.
  - intros Hvalid. destruct (run_wf type c s Hwf) as (s' & Hrun & Hwf').
    + destruct c; simpl; try apply (wf_status _ _ Hwf). by apply Hvalid.
    + assert (reachable type s') as Hreach' by by eapply reachable_step.
      assert (counts_within limit s') as Hin'
        by by eapply run_counts_within.
      exists s'. split; [done|]. split; [done|]. split; [done|].
      split; [done|]. intros k si Hk.
      apply (rows_within limit s' k si); try done.
      by apply (reachable_rows_match type).
  - intros newStatus -> Hnot. simpl.
    destruct (info s !! newStatus) as [si|] eqn:Hsi.
    + destruct Hnot. apply (wf_entries _ _ Hwf). by eexists.
    + by read_entry Hsi.
Qed.

Lemma calls_succeed_witness :
  ∃ (s' : HookState) (si : SectionInfo),
    run commercial (changeTotalCount "3 units")
      (useOccupancySection commercial Both) = Ok s' ∧
    wf_state commercial s' ∧
    info s' !! Both = Some si ∧
    Z.of_nat (length (leaseRows si)) ≤ 1000 + 1.
Proof.
  destruct (calls_succeed commercial 1000 (useOccupancySection commercial Both)
              (changeTotalCount "3 units")) as [Hok _].
  - apply reachable_init. unfold applicable. vm_compute.
    repeat constructor.
  - lia.
  - apply useOccupancySection_counts_within. lia.
  - vm_compute. discriminate.
  - destruct Hok as (s' & Hrun & Hwf & _ & _ & Hrows).
    + intros newStatus Heq. discriminate Heq.
    + destruct (info s' !! Both) as [si|] eqn:Hsi.
      * exists s', si. split; [exact Hrun|]. split; [exact Hwf|].
        split; [exact Hsi|]. apply (Hrows Both si Hsi).
      * destruct (proj2 (wf_entries _ _ Hwf Both)) as [si' Hsi'].
        -- unfold applicable. vm_compute. repeat constructor.
        -- rewrite Hsi in Hsi'. discriminate Hsi'.
Defined.

(** * A hook built with a status outside its type *)

Lemma createInitialInfoState_entries (type : SectionType)
    (k : OccupancyStatus) :
  is_Some (createInitialInfoState type !! k) ↔ applicable type k.
Proof.
  apply (wf_entries type (useOccupancySection type Rent)).
  apply useOccupancySection_wf. unfold applicable.
  destruct type; vm_compute; repeat constructor.
Qed.

(** X6.  A hook built with an initial status that its type has no entry for
    yields no new state from any call that addresses the active status (the
    read of the missing entry fails, in the handler or in the updater it
    hands to React); [changeStatus] to a status of the type returns, with
    that status active, a state the hook also reaches when it is built with
    that status, so a well-formed one. *)
Theorem outside_initial_status (type : SectionType)
    (initialStatus : OccupancyStatus) :
  ¬ applicable type initialStatus →
  (∀ (c : Call) (s' : HookState),
     addressed c (useOccupancySection type initialStatus) = initialStatus →
     run type c (useOccupancySection type initialStatus) ≠ Ok s') ∧
  (∀ k : OccupancyStatus, applicable type k →
     ∃ s' : HookState,
       run type (changeStatus k) (useOccupancySection type initialStatus)
       = Ok s' ∧
       status s' = k ∧ reachable type s' ∧ wf_state type s').
Proof.
  intros Hout. split.
  - intros c s' Haddr Hrun. apply run_Ok_entry in Hrun. rewrite Haddr in Hrun.
    by apply Hout, createInitialInfoState_entries.
  - intros k Hk.
    destruct (proj2 (createInitialInfoState_entries type k) Hk) as [si Hsi].
    eexists. split; [by apply handleStatusChange_Ok|]. split; [done|].
    assert (reachable type
              {| status := k;
                 info :=
                   <[k := with_leaseRows
                            (autoSetUsageStatus
                               (Math_max2 (or_zero (Number (totalCount si))) 1)
                               (or_zero (Number (tenantCount si)))
                               (leaseRows si) k (isCommercial type)) si]>
                     (createInitialInfoState type) |})
      as Hreach.
    { apply (reachable_step type (useOccupancySection type k) _
               (changeStatus k)); [by apply reachable_init|].
      simpl. by rewrite (handleStatusChange_Ok type k
                           (useOccupancySection type k) si Hsi). }
    split; [exact Hreach | exact (reachable_wf type _ Hreach)].
Qed.

Lemma outside_initial_status_witness :
  (∀ s' : HookState,
     run residential (changeTotalCount "2")
       (useOccupancySection residential SelfUse) ≠ Ok s') ∧
  ∃ s' : HookState,
    run residential (changeStatus Rent)
      (useOccupancySection residential SelfUse) = Ok s' ∧
    status s' = Rent ∧ wf_state residential s'.
Proof.
  destruct (outside_initial_status residential SelfUse) as [Hnone Hback].
  - unfold applicable. vm_compute. intros Hin.
    repeat (apply elem_of_cons in Hin as [Heq | Hin]; [discriminate Heq|]).
    by apply elem_of_nil in Hin.
  - split.
    + intros s'. apply (Hnone (changeTotalCount "2") s'). reflexivity.
    + destruct (Hback Rent) as (s' & Hrun & Hst & _ & Hwf).
      * unfold applicable. vm_compute. repeat constructor.
      * exists s'. split; [exact Hrun|]. split; [exact Hst | exact Hwf].
Defined.
